(* ===== verification/_CoqProject ===== *)
-Q . S2P
Prelude.v
Jsx.v
Nesting.v
Dom.v
Query.v
Hydration.v
Layout.v
RegExp.v
Playwright.v
Steps.v
HomeSpec.v
Host.v
EndToEnd.v
