(* ===== verification/Prelude.v ===== *)
(** * Verification of the vibe-coding-template sources

    ** The program

    The repository, as far as its sources are given, has two parts.

    - [src/app/layout.tsx], the root layout of a Next.js application.  It
      exports the constant [metadata] (title and description of every page)
      and the component [RootLayout], which wraps the content of a page in
      the [html] and [body] elements of the document.  On [html] it sets
      [lang="en"]; on both elements it sets [suppressHydrationWarning].
    - [tests/e2e/home.spec.ts], a Playwright suite, [Homepage], of three
      tests that drive the running application through a browser.

    The two parts share no state and call each other nowhere: the suite sees
    the layout only through the browser.  Everything else that takes part
    (React, which renders and hydrates the tree; Next.js, which routes and
    builds the head; Playwright and the browser; the style sheet and the home
    page, which are not among the sources) is environment.  The environment
    is modelled only as far as the properties of the two parts need it, and
    always in a file of its own, so that what is translated from the sources
    and what is assumed of the libraries never mix.  No theorem of the
    environment alone is put forward as a property of the program: the
    properties are those whose statement changes its truth when the layout
    or a test changes.

    ** Files

    Translated from the sources:

    - [Layout]: [Metadata], [metadata], [side_effect_imports] (the import
      of the style sheet), [RootLayoutProps] and [RootLayout] from
      [src/app/layout.tsx], with the theorems of the shell.
    - [HomeSpec]: [should_load_the_homepage], [should_have_correct_title],
      [should_be_responsive_on_mobile] and the suite [Homepage] from
      [tests/e2e/home.spec.ts].  An [async] body is a sequence of steps in the
      monad [SE]: the state is the page, an [await] that rejects is a throw,
      and the steps after it do not run.

    Environment:

    - [Jsx]: the React node tree ([ReactNode]) that a JSX expression denotes,
      its induction principle, decidable equality, queries, and one-hole
      contexts ([Ctx], [plug]).
    - [Nesting]: the check that every node may stand under its parent
      ([nesting_ok]), with the rules of the structure of a document; the
      parent is the document or an element ([Parent]).
    - [Dom]: the document tree ([DomNode]), the rendering of a React tree to
      it ([render]) and its serialisation ([outerHTML], [renderToString]).
    - [Query]: every match of a selector in a document
      ([querySelectorAll]), of which [querySelector] returns the first, what
      a strict locator resolves to ([resolve_strict]), and that a tree which
      is nested well under an ordinary element brings no [html], [head] or
      [body] ([structure_absent]).
    - [Hydration]: hydration as a walk of the React tree along a cursor over
      the document ([hydrate]), reporting mismatches by the documented rules
      of [suppressHydrationWarning]; [html], [head] and [body] claim their
      element wherever it stands ([claim]).
    - [RegExp]: regular expressions with a derivative matcher ([matches],
      [regexp_test]) proved against the language of the pattern ([Matches]).
    - [Playwright]: the interface [Browser] of the observations and actions
      that the suite uses, the laws [BrowserLaws] and [Settles], the calls
      of the test API ([page.goto], [expect.toHaveURL], ...) and the runner
      ([run_test], [run_suite]), which starts every test on a new page.
    - [Steps]: predicates that every action of a browser keeps ([stable]),
      the pages that a browser can reach ([br_step], [reachable]), and the
      equivalence of an expectation that always holds with no step at all.
    - [Host]: a reference implementation of [Browser], parameterised by what
      the sources leave open ([HostConfig]: base URL, page contents, status
      of the response, layout engine); it serves [RootLayout] around the
      page content under a head built from [metadata], and it keeps
      [BrowserLaws].  Its locators are strict, and an element is visible
      when the layout engine gives it a box that is not empty and the style
      sheet does not hide it.
    - [EndToEnd]: the suite run on the host.

    [Prelude] (this file) has the [result] type, the monad [SE] with its
    notation (scope [se_scope]) and its equivalence ([≡], respected by
    sequencing, so that [rewrite] works inside a body), the rewriting
    database [vibe], and the lemmas on strings and decimal numerals that
    the other files share.

    ** What the theorems show

    Of the shell ([Layout]): the tree it returns is [html] over one [body]
    over the content alone; it renders to a document in which [html]
    carries [lang="en"] and the hydration flags do not appear; its markup is
    the markup of the content between the tags of the shell; it is nested
    as a document must be and is nested well exactly when its content is,
    under [body]; it cannot stand inside itself.  In the document of a page
    that is nested well a selector finds one [html], one [body] and no
    [head], so that a strict locator of [body] resolves.  Hydration reports
    nothing for the shell whatever attributes [html] and [body] carry in
    the document and whatever nodes were appended to [body], which is what
    the two flags are for; it finds [html] and [body] past whatever stands
    before them (a head, injected nodes); the flag on [body] covers the
    text directly under it and nothing deeper.

    Of the suite ([HomeSpec]), for every browser: the exact condition under
    which each test passes, the exact errors each can fail with, that
    [should have correct title] cannot fail on any title and does what its
    navigation alone does, and, under [BrowserLaws], one condition for the
    whole suite to pass.  An expectation retries until its timeout; on a
    browser whose pages do not change once a navigation has returned
    ([Settles]) the suite is shown to be decided by the page as the
    navigation returned it.

    Of both together ([Host], [EndToEnd]): on the reference host the title
    and the description in the head are those of [metadata], neither is
    empty, and the style sheet that the layout imports is linked; the
    document that the host serves hydrates without a mismatch whatever the
    extensions of the browser have added to [html] and [body]; every page
    that a test can reach is blank or carries the title of [metadata] over
    the shell of the layout ([host_reachable_ok], by induction on the
    actions).  The first two tests pass on every configuration, whatever
    status the server answers with.  The third passes exactly when the home
    page brings no [body] of its own and the [body] of the layout, at 375
    by 667, has a box that is not empty and is not hidden.  The whole suite
    passes on a host that hides nothing and whose home page is nested well.
    A test that runs twice on the same page of the host has the outcome of
    one run; that this depends on the host, not on the tests, is shown by a
    browser on which it fails ([twice_depends_on_the_browser]).

    ** Bounds and fuel

    Every function of the development is structurally recursive.  One
    recurses on fuel: the retrying of an expectation ([poll] in
    [Playwright]) has the timeout of the configuration as its fuel, counted
    in polling intervals, and running out of it is the failure of the
    expectation, not an artefact of the model.  [poll_ok], [poll_err] and
    [poll_succeeds] say what the loop returns for every fuel, and
    [poll_mono] that more fuel keeps a success.  The matcher of [RegExp]
    recurses on the string and takes the derivative of the pattern at every
    character.

    ** What is not modelled

    - The content of the style sheet and of the home page: not among the
      sources.  The import of the style sheet is the list
      [side_effect_imports], which the host links from the head of every
      page; the box of an element and whether it is hidden are parameters
      of the host.
    - Of Next's type [Metadata], the two fields that the source sets, as
      plain strings; the template form of a title and every other field are
      left out.
    - Function components, state, effects and events of React: the shell
      uses none.  A content tree is a tree of host elements, text, integers
      and fragments; "every content tree" in a theorem ranges over these.
      A number of JavaScript that is not an integer is not a content tree of
      the model.
    - The nesting rules of tables, lists, forms, headings and paragraphs:
      [nesting_ok] has the rules of [html], [head], [body] and the document,
      which are those the shell is concerned with.
    - The document type declaration that React writes before [html], and
      the reading of markup by the browser.  The host hands the document to
      the browser as the tree that was rendered; a browser that reads the
      markup folds a second [body] into the first, so that a home page with
      a [body] of its own has two [body] elements in the model only.
    - Hydration of what React hoists into [head] ([title], [meta], style
      sheets): the head of a served document is passed over.
    - Head elements other than [title], the description and the links of
      the style sheets; Next's streaming and routing beyond one route and a
      not-found page.
    - Time beyond polling intervals: an expectation looks at the page once
      per interval up to its timeout; a navigation is one step that is
      accepted or rejected, its own timeout included in the rejection.  The
      title of a page can always be read: the expectation on the title
      cannot time out on the reading itself.  [setViewportSize] cannot
      fail.
    - The runner beyond one test after the other: workers, retries of whole
      tests, sharding and the timeout of a whole test.  A test starts on a
      page of its own and the tests share no variable, so that the outcome
      of a test is that of its body on a new page ([run_test]) whatever
      runs beside it; this isolation is part of the interface of the
      runner, not a theorem about the tests.
    - Selectors other than the name of a tag.  The error that Playwright
      reports when a strict locator matches more than one element is not
      told from the failure of the expectation: both are the error of
      [toBeVisible].  Playwright reports it at the first look, without
      retrying; the model retries, which gives the same outcome on every
      page that does not change while the test waits, as the pages of the
      host do not.
    - Strings are sequences of bytes; [.] in a pattern rejects the line feed
      and the carriage return.  The string literals of the sources are
      ASCII.

    ** Conventions

    A JavaScript object used as a list of named properties is an association
    list in source order.  A declaration keeps the name it has in the
    source; a test is named by its title with underscores. *)

From Stdlib Require Export Ascii.
From stdpp Require Export base strings list option pretty.

(** ** Computations that may throw *)

Inductive result (E A : Type) : Type :=
| Ok (a : A)
| Err (e : E).
Global Arguments Ok {E A} a.
Global Arguments Err {E A} e.

(** ** The state-and-error monad

    [SE S E A] is a computation that reads and updates a state [S] and either
    returns an [A] or throws an [E].  The state at the point of the throw is
    not observable, as after a rejected [await]. *)

Definition SE (S E A : Type) : Type := S → result E (A * S).

Definition se_ret {S E A} (a : A) : SE S E A := λ s, Ok (a, s).

Definition se_bind {S E A B} (c : SE S E A) (k : A → SE S E B) : SE S E B :=
  λ s, match c s with
       | Ok (a, s') => k a s'
       | Err e => Err e
       end.

Definition se_throw {S E A} (e : E) : SE S E A := λ _, Err e.

Declare Scope se_scope.
Delimit Scope se_scope with se.
Notation "x <- c ;; k" := (se_bind c (λ x, k))
  (at level 100, c at next level, right associativity) : se_scope.
Notation "c ;; k" := (se_bind c (λ _, k))
  (at level 100, right associativity) : se_scope.

(** ** Automation *)

Create HintDb vibe discriminated.
Create Rewrite HintDb vibe.

(** ** Laws of the monad *)

Section se_laws.
Context {S E : Type}.

Lemma se_bind_ret_l {A B} (a : A) (k : A → SE S E B) s :
  se_bind (se_ret a) k s = k a s.
Proof. reflexivity. Qed.

Lemma se_bind_ret_r {A} (c : SE S E A) s :
  se_bind c se_ret s = c s.
Proof. unfold se_bind, se_ret. by destruct (c s) as [[? ?]|?]. Qed.

Lemma se_bind_assoc {A B C} (c : SE S E A) (k : A → SE S E B)
    (h : B → SE S E C) s :
  se_bind (se_bind c k) h s = se_bind c (λ a, se_bind (k a) h) s.
Proof. unfold se_bind. by destruct (c s) as [[? ?]|?]. Qed.

Lemma se_bind_throw {A B} (e : E) (k : A → SE S E B) s :
  se_bind (se_throw e) k s = Err e.
Proof. reflexivity. Qed.

Lemma se_bind_ok_inv {A B} (c : SE S E A) (k : A → SE S E B) s b s'' :
  se_bind c k s = Ok (b, s'') ↔ ∃ a s', c s = Ok (a, s') ∧ k a s' = Ok (b, s'').
Proof.
  unfold se_bind. destruct (c s) as [[a s']|e]; split.
  - eauto.
  - by intros (? & ? & [= <- <-] & ?).
  - done.
  - by intros (? & ? & ? & ?).
Qed.

Lemma se_bind_err_inv {A B} (c : SE S E A) (k : A → SE S E B) s e :
  se_bind c k s = Err e ↔
  c s = Err e ∨ ∃ a s', c s = Ok (a, s') ∧ k a s' = Err e.
Proof.
  unfold se_bind. destruct (c s) as [[a s']|e']; split.
  - eauto.
  - by intros [?|(? & ? & [= <- <-] & ?)].
  - intros [= ->]. by left.
  - by intros [[= ->]|(? & ? & ? & ?)].
Qed.

(** A sequence returns when its first part returns and the rest returns
    from there. *)
Lemma se_bind_returns {A B} (c : SE S E A) (k : A → SE S E B) s :
  (∃ r, se_bind c k s = Ok r) ↔ ∃ a s', c s = Ok (a, s') ∧ ∃ r, k a s' = Ok r.
Proof.
  unfold se_bind. destruct (c s) as [[a s']|e]; split.
  - intros [r Hr]. eauto.
  - by intros (? & ? & [= <- <-] & ?).
  - by intros [? ?].
  - by intros (? & ? & ? & ?).
Qed.

End se_laws.

#[export] Hint Rewrite @se_bind_ret_l @se_bind_ret_r @se_bind_assoc
  @se_bind_throw : vibe.

(** ** Equivalence of computations

    Two computations are equivalent when they do the same from every state.
    Sequencing respects the equivalence, so that a part of a sequence can be
    rewritten by an equivalent one. *)

Section se_equiv.
Context {S E : Type}.

#[export] Instance se_equiv {A} : Equiv (SE S E A) := λ c1 c2, ∀ s, c1 s = c2 s.

#[export] Instance se_equiv_equivalence {A} : Equivalence (≡@{SE S E A}).
Proof.
  split.
  - by intros c s.
  - by intros c1 c2 H s.
  - intros c1 c2 c3 H1 H2 s. by rewrite H1.
Qed.

#[export] Instance se_bind_proper {A B} :
  Proper ((≡) ==> pointwise_relation A (≡) ==> (≡)) (@se_bind S E A B).
Proof.
  intros c1 c2 Hc k1 k2 Hk s. unfold se_bind. rewrite Hc.
  destruct (c2 s) as [[a s']|e]; [apply Hk|done].
Qed.

Lemma se_equiv_bind_assoc {A B C} (c : SE S E A) (k : A → SE S E B)
    (h : B → SE S E C) :
  se_bind (se_bind c k) h ≡ se_bind c (λ a, se_bind (k a) h).
Proof. intros s. apply se_bind_assoc. Qed.

Lemma se_equiv_bind_ret_l {A B} (a : A) (k : A → SE S E B) :
  se_bind (se_ret a) k ≡ k a.
Proof. by intros s. Qed.

(** A computation that returns nothing may be followed by one that does
    nothing. *)
Lemma se_equiv_seq_ret_r (c : SE S E unit) : se_bind c (λ _, se_ret tt) ≡ c.
Proof. intros s. unfold se_bind, se_ret. by destruct (c s) as [[[] ?]|?]. Qed.

Lemma se_equiv_ret_seq_l {B} (k : SE S E B) : se_bind (se_ret tt) (λ _, k) ≡ k.
Proof. by intros s. Qed.

Lemma se_equiv_seq_assoc {A B C} (c1 : SE S E A) (c2 : SE S E B) (c3 : SE S E C) :
  se_bind (se_bind c1 (λ _, c2)) (λ _, c3) ≡ se_bind c1 (λ _, se_bind c2 (λ _, c3)).
Proof. apply se_equiv_bind_assoc. Qed.

End se_equiv.

(** ** Strings *)

(** The double quote, which a string literal cannot hold. *)
Definition dquote : string := String (ascii_of_nat 34) "".

(** The concatenation of a list of strings. *)
Definition string_concat (l : list string) : string := foldr String.append "" l.

Lemma string_app_nil_l (s : string) : "" +:+ s = s.
Proof. reflexivity. Qed.

Lemma string_app_cons (c : ascii) (s t : string) :
  String c s +:+ t = String c (s +:+ t).
Proof. reflexivity. Qed.

Lemma string_app_nil_r (s : string) : s +:+ "" = s.
Proof. induction s as [|c s IH]; [done|]. by rewrite string_app_cons, IH. Qed.

Lemma string_app_assoc (s1 s2 s3 : string) :
  (s1 +:+ s2) +:+ s3 = s1 +:+ (s2 +:+ s3).
Proof.
  induction s1 as [|c s1 IH]; [done|]. by rewrite !string_app_cons, IH.
Qed.

Lemma string_length_app (s1 s2 : string) :
  String.length (s1 +:+ s2) = String.length s1 + String.length s2.
Proof.
  induction s1 as [|c s1 IH]; [done|]. rewrite string_app_cons. simpl.
  by rewrite IH.
Qed.

Lemma string_concat_app (l1 l2 : list string) :
  string_concat (l1 ++ l2) = string_concat l1 +:+ string_concat l2.
Proof.
  induction l1 as [|s l1 IH]; simpl; [done|].
  by rewrite IH, string_app_assoc.
Qed.

#[export] Hint Rewrite string_app_nil_l string_app_cons string_app_nil_r
  string_app_assoc string_concat_app : vibe.

(** ** Decimal numerals *)

Lemma pretty_N_go_length (x : N) (s : string) :
  String.length s ≤ String.length (pretty_N_go x s).
Proof.
  revert s. induction (N.lt_wf_0 x) as [x _ IH]; intros s.
  destruct (decide (x = 0)%N) as [->|Hx]; [by rewrite pretty_N_go_0|].
  rewrite pretty_N_go_step by lia.
  etrans; [|apply IH, N.div_lt; lia]. simpl. lia.
Qed.

Lemma pretty_N_nonempty (x : N) : pretty x ≠ "".
Proof.
  unfold pretty, pretty_N. case_decide; [done|].
  rewrite pretty_N_go_step by lia. intros Hs.
  pose proof (pretty_N_go_length (x `div` 10)
    (String (pretty_N_char (x `mod` 10)) "")) as Hlen.
  rewrite Hs in Hlen. simpl in Hlen. lia.
Qed.

Lemma pretty_Z_nonempty (k : Z) : pretty k ≠ "".
Proof.
  destruct k as [|p|p]; [done|apply pretty_N_nonempty|done].
Qed.
