(* ===== verification/Jsx.v ===== *)
(** The React node tree: what a JSX expression evaluates to.

    [ReactNode] follows the union type [React.ReactNode] that
    [src/app/layout.tsx] gives to [children]: nothing ([null], [undefined] and
    the booleans render nothing), a string, a number, a host element with its
    properties and children, or a sequence of nodes (an array or a fragment).
    Elements of function components are taken as already rendered to host
    elements, which is how the server sees them when it serialises the
    document.  Numbers are integers.

    The file also has one-hole contexts over the tree ([Ctx], [plug]): a
    component that places its argument at a fixed position of a fixed tree,
    without reading it, is a context. *)

From S2P Require Import Prelude.

(** The value of a property of a host element: a string literal, or the
    boolean that a bare attribute ([<body suppressHydrationWarning>]) gives. *)
Inductive PropValue : Type :=
| PString (s : string)
| PBool (b : bool).

Definition Props : Type := list (string * PropValue).

Unset Elimination Schemes.
Inductive ReactNode : Type :=
| RNull
| RText (s : string)
| RNumber (n : Z)
| RElement (type : string) (props : Props) (children : list ReactNode)
| RFragment (children : list ReactNode).
Set Elimination Schemes.

(** Induction on a node gives the property for every child of an element or
    of a fragment. *)
Section ReactNode_ind.
Variable P : ReactNode → Prop.
Hypothesis Hnull : P RNull.
Hypothesis Htext : ∀ s, P (RText s).
Hypothesis Hnumber : ∀ n, P (RNumber n).
Hypothesis Helement : ∀ t ps cs, Forall P cs → P (RElement t ps cs).
Hypothesis Hfragment : ∀ cs, Forall P cs → P (RFragment cs).

Fixpoint ReactNode_ind (n : ReactNode) : P n :=
  let fix all (cs : list ReactNode) : Forall P cs :=
    match cs with
    | [] => @List.Forall_nil _ P
    | c :: cs' => @List.Forall_cons _ P c cs' (ReactNode_ind c) (all cs')
    end in
  match n with
  | RNull => Hnull
  | RText s => Htext s
  | RNumber k => Hnumber k
  | RElement t ps cs => Helement t ps cs (all cs)
  | RFragment cs => Hfragment cs (all cs)
  end.
End ReactNode_ind.

#[export] Instance PropValue_eq_dec : EqDecision PropValue.
Proof. solve_decision. Defined.

#[export] Instance ReactNode_eq_dec : EqDecision ReactNode.
Proof.
  refine (fix go (x y : ReactNode) {struct x} : Decision (x = y) :=
    match x, y with
    | RNull, RNull => left eq_refl
    | RText s1, RText s2 => cast_if (decide (s1 = s2))
    | RNumber n1, RNumber n2 => cast_if (decide (n1 = n2))
    | RElement t1 p1 c1, RElement t2 p2 c2 =>
        cast_if_and3 (decide (t1 = t2)) (decide (p1 = p2))
          (@decide (c1 = c2) (@list_eq_dec _ go c1 c2))
    | RFragment c1, RFragment c2 =>
        cast_if (@decide (c1 = c2) (@list_eq_dec _ go c1 c2))
    | _, _ => right _
    end); congruence.
Defined.

(** ** Properties of an element *)

(** The first binding of a property name, as a property read on an object
    literal without duplicate keys. *)
Fixpoint get_prop (name : string) (ps : Props) : option PropValue :=
  match ps with
  | [] => None
  | (k, v) :: ps' => if decide (k = name) then Some v else get_prop name ps'
  end.

(** A property is set when it is bound to [true]. *)
Definition prop_is_true (name : string) (ps : Props) : bool :=
  bool_decide (get_prop name ps = Some (PBool true)).

(** ** Queries *)

Definition node_type (n : ReactNode) : option string :=
  match n with RElement t _ _ => Some t | _ => None end.

Definition node_children (n : ReactNode) : list ReactNode :=
  match n with
  | RElement _ _ cs | RFragment cs => cs
  | _ => []
  end.

(** The direct children that are elements of type [t]. *)
Definition child_elements (t : string) (n : ReactNode) : list ReactNode :=
  filter (λ c, node_type c = Some t) (node_children n).

(** ** One-hole contexts *)

Inductive Ctx : Type :=
| CHole
| CElement (type : string) (props : Props)
    (before : list ReactNode) (inner : Ctx) (after : list ReactNode)
| CFragment (before : list ReactNode) (inner : Ctx) (after : list ReactNode).

Fixpoint plug (K : Ctx) (n : ReactNode) : ReactNode :=
  match K with
  | CHole => n
  | CElement t ps l K' r => RElement t ps (l ++ plug K' n :: r)
  | CFragment l K' r => RFragment (l ++ plug K' n :: r)
  end.
