(* ===== verification/Nesting.v ===== *)
(** Valid nesting of the elements of a document.

    This file is a model of a check of the library the sources call: React
    validates, for every element and every text that it renders, that the
    node may stand under its parent.  The model has the rules of the
    structure of a document: [html] stands under the document and nowhere
    else, [head] and [body] under [html] and nowhere else, [html] holds
    nothing but them, [head] holds metadata content only, and text stands
    under neither.  The rules of tables, lists, forms, headings and
    paragraphs are left out: a tree that [nesting_ok] accepts may still
    break one of those.  React names the parent by a tag and the document by
    the tag [#document]; here the parent is a value of the type [Parent], so
    that no element is mistaken for the document.

    A fragment is transparent: its children stand under the parent of the
    fragment. *)

From Stdlib Require Import Btauto.
From S2P Require Import Prelude.
From S2P Require Import Jsx.

(** Where a node stands: directly under the document, or under an
    element. *)
Inductive Parent : Type :=
| Document
| Element (tag : string).

Coercion Element : string >-> Parent.

#[export] Instance Parent_eq_dec : EqDecision Parent.
Proof. solve_decision. Defined.

(** The elements that may stand in [head]. *)
Definition head_content : list string :=
  ["base"; "basefont"; "bgsound"; "link"; "meta"; "title"; "noscript";
   "noframes"; "style"; "script"; "template"].

(** The elements that make the structure of a document, and may stand
    nowhere else. *)
Definition document_structure : list string :=
  ["html"; "head"; "body"; "frameset"].

Definition is_tag_valid_with_parent (tag : string) (parent : Parent) : bool :=
  match parent with
  | Document => bool_decide (tag = "html")
  | Element p =>
      if decide (p = "html") then bool_decide (tag ∈ ["head"; "body"; "frameset"])
      else if decide (p = "head") then bool_decide (tag ∈ head_content)
      else bool_decide (tag ∉ document_structure)
  end.

(** Text stands under every element but [html] and [head], and not under
    the document. *)
Definition is_text_valid_with_parent (parent : Parent) : bool :=
  match parent with
  | Document => false
  | Element p => bool_decide (p ∉ ["html"; "head"])
  end.

(** [nesting_ok parent n]: every node of [n] may stand where it does, when
    [n] stands under [parent]. *)
Fixpoint nesting_ok (parent : Parent) (n : ReactNode) : bool :=
  match n with
  | RNull => true
  | RText s => bool_decide (s = "") || is_text_valid_with_parent parent
  | RNumber _ => is_text_valid_with_parent parent
  | RFragment cs => forallb (nesting_ok parent) cs
  | RElement t _ cs => is_tag_valid_with_parent t parent && forallb (nesting_ok t) cs
  end.

(** The same check for the nodes of a context around its hole. *)
Fixpoint ctx_nesting_ok (parent : Parent) (K : Ctx) : bool :=
  match K with
  | CHole => true
  | CElement t _ l K' r =>
      is_tag_valid_with_parent t parent
      && forallb (nesting_ok t) l && ctx_nesting_ok t K' && forallb (nesting_ok t) r
  | CFragment l K' r =>
      forallb (nesting_ok parent) l && ctx_nesting_ok parent K'
      && forallb (nesting_ok parent) r
  end.

(** The parent that the node in the hole of a context stands under. *)
Fixpoint hole_parent (parent : Parent) (K : Ctx) : Parent :=
  match K with
  | CHole => parent
  | CElement t _ _ K' _ => hole_parent t K'
  | CFragment _ K' _ => hole_parent parent K'
  end.

(** An ordinary element: one under which the rules of the structure of a
    document say nothing. *)
Definition flow (p : string) : Prop := p ∉ ["html"; "head"].

(** ** Lemmas *)

(** A tree in a context is nested well when the context is and the tree is
    under the parent that the hole gives it. *)
Lemma nesting_ok_plug K : ∀ parent n,
  nesting_ok parent (plug K n)
  = ctx_nesting_ok parent K && nesting_ok (hole_parent parent K) n.
Proof.
  induction K as [|t ps l K IH r|l K IH r]; intros parent n; simpl.
  - done.
  - rewrite forallb_app. simpl. rewrite IH. btauto.
  - rewrite forallb_app. simpl. rewrite IH. btauto.
Qed.

Lemma flow_body : flow "body".
Proof. by apply (bool_decide_unpack _). Qed.

(** An element of the structure of a document stands under no ordinary
    element. *)
Lemma structure_under_flow t (p : string) ps cs :
  t ∈ document_structure → flow p → nesting_ok p (RElement t ps cs) = false.
Proof.
  unfold flow. intros Ht Hp. simpl. rewrite !elem_of_cons in Hp.
  rewrite !decide_False by tauto.
  by rewrite bool_decide_eq_false_2 by tauto.
Qed.

(** Text stands under every ordinary element. *)
Lemma text_under_flow (p : string) s : flow p → nesting_ok p (RText s) = true.
Proof.
  intros Hp. simpl. rewrite (bool_decide_eq_true_2 _ Hp). apply orb_true_r.
Qed.

(** An element that stands under an ordinary element is ordinary, and none
    of the structure of a document. *)
Lemma valid_under_flow t (p : string) :
  flow p → is_tag_valid_with_parent t p = true → (t ∉ document_structure) ∧ flow t.
Proof.
  unfold flow, document_structure. intros Hp. simpl. rewrite !elem_of_cons in Hp.
  rewrite !decide_False by tauto.
  rewrite bool_decide_eq_true. unfold document_structure.
  rewrite !elem_of_cons, !elem_of_nil. tauto.
Qed.
