(* ===== verification/Dom.v ===== *)
(** The document that a React tree renders to on the server.

    This file is a model of the library the sources call (React's server
    renderer), written from its documented behaviour and kept to what the
    root layout relies on:

    - a host element renders to a DOM element of the same tag; [null] and
      the empty string render to nothing; a fragment renders to the nodes of
      its children, in order;
    - React's own properties ([suppressHydrationWarning], [children], [key],
      [ref] and the like) are never written to the DOM; a string property is
      an attribute of the same name ([className] is [class], [htmlFor] is
      [for]); a boolean property is an empty attribute when true and absent
      when false;
    - text and attribute values are escaped on output; two texts in a row
      are kept apart by an empty comment; the document type declaration
      that React puts before [html] is not written. *)

From S2P Require Import Prelude.
From S2P Require Import Jsx.

Definition Attrs : Type := list (string * string).

Unset Elimination Schemes.
Inductive DomNode : Type :=
| DText (data : string)
| DElement (tag : string) (attrs : Attrs) (childNodes : list DomNode).
Set Elimination Schemes.

Section DomNode_ind.
Variable P : DomNode → Prop.
Hypothesis Htext : ∀ s, P (DText s).
Hypothesis Helement : ∀ t attrs ds, Forall P ds → P (DElement t attrs ds).

Fixpoint DomNode_ind (d : DomNode) : P d :=
  let fix all (ds : list DomNode) : Forall P ds :=
    match ds with
    | [] => @List.Forall_nil _ P
    | d' :: ds' => @List.Forall_cons _ P d' ds' (DomNode_ind d') (all ds')
    end in
  match d with
  | DText s => Htext s
  | DElement t attrs ds => Helement t attrs ds (all ds)
  end.
End DomNode_ind.

#[export] Instance DomNode_eq_dec : EqDecision DomNode.
Proof.
  refine (fix go (x y : DomNode) {struct x} : Decision (x = y) :=
    match x, y with
    | DText s1, DText s2 => cast_if (decide (s1 = s2))
    | DElement t1 a1 c1, DElement t2 a2 c2 =>
        cast_if_and3 (decide (t1 = t2)) (decide (a1 = a2))
          (@decide (c1 = c2) (@list_eq_dec _ go c1 c2))
    | _, _ => right _
    end); congruence.
Defined.

(** ** Properties to attributes *)

Definition reserved_props : list string :=
  ["children"; "key"; "ref"; "dangerouslySetInnerHTML"; "suppressHydrationWarning";
   "suppressContentEditableWarning"; "defaultValue"; "defaultChecked"; "innerHTML"].

Definition attr_name (prop : string) : string :=
  if decide (prop = "className") then "class"
  else if decide (prop = "htmlFor") then "for"
  else prop.

Definition dom_attr (p : string * PropValue) : option (string * string) :=
  if decide (p.1 ∈ reserved_props) then None
  else match p.2 with
       | PString s => Some (attr_name p.1, s)
       | PBool true => Some (attr_name p.1, "")
       | PBool false => None
       end.

Definition dom_attrs (ps : Props) : Attrs := omap dom_attr ps.

(** ** Rendering *)

Fixpoint render (n : ReactNode) : list DomNode :=
  match n with
  | RNull => []
  | RText s => if decide (s = "") then [] else [DText s]
  | RNumber k => [DText (pretty k)]
  | RElement t ps cs => [DElement t (dom_attrs ps) (concat (map render cs))]
  | RFragment cs => concat (map render cs)
  end.

Definition render_all (cs : list ReactNode) : list DomNode :=
  concat (map render cs).

(** ** Queries on the document *)

Definition dom_tag (d : DomNode) : option string :=
  match d with DElement t _ _ => Some t | DText _ => None end.

Definition dom_attributes (d : DomNode) : Attrs :=
  match d with DElement _ attrs _ => attrs | DText _ => [] end.

Definition getAttribute (name : string) (d : DomNode) : option string :=
  (list_find (λ a, a.1 = name) (dom_attributes d)) ≫= λ ia, Some ia.2.2.

(** The text of a node and of its descendants, in document order. *)
Fixpoint textContent (d : DomNode) : string :=
  match d with
  | DText s => s
  | DElement _ _ ds => string_concat (map textContent ds)
  end.

(** The first element with the given tag, the node itself included, in
    document order: [querySelector] with a type selector. *)
Fixpoint querySelector (t : string) (d : DomNode) : option DomNode :=
  match d with
  | DText _ => None
  | DElement t' _ ds =>
      if decide (t' = t) then Some d
      else (fix first (ds : list DomNode) : option DomNode :=
              match ds with
              | [] => None
              | d' :: ds' =>
                  match querySelector t d' with
                  | Some r => Some r
                  | None => first ds'
                  end
              end) ds
  end.

(** ** Serialisation *)

Definition escape_char (c : ascii) : string :=
  if decide (c = "&"%char) then "&amp;"
  else if decide (c = "<"%char) then "&lt;"
  else if decide (c = ">"%char) then "&gt;"
  else if decide (c = ascii_of_nat 34) then "&quot;"
  else if decide (c = "'"%char) then "&#x27;"
  else String c "".

Fixpoint escapeHtml (s : string) : string :=
  match s with
  | "" => ""
  | String c s' => escape_char c +:+ escapeHtml s'
  end.

Definition void_elements : list string :=
  ["area"; "base"; "br"; "col"; "embed"; "hr"; "img"; "input"; "link"; "meta";
   "source"; "track"; "wbr"].

Definition is_void (t : string) : bool := bool_decide (t ∈ void_elements).

Definition attr_html (a : string * string) : string :=
  " " +:+ a.1 +:+ "=" +:+ dquote +:+ escapeHtml a.2 +:+ dquote.

Definition open_tag (t : string) (attrs : Attrs) : string :=
  "<" +:+ t +:+ string_concat (map attr_html attrs) +:+ ">".

Definition close_tag (t : string) : string := "</" +:+ t +:+ ">".

(** Two text nodes in a row are kept apart by an empty comment, so that the
    parser gives back two nodes. *)
Definition text_separator : string := "<!-- -->".

Fixpoint outerHTML (d : DomNode) : string :=
  match d with
  | DText s => escapeHtml s
  | DElement t attrs ds =>
      open_tag t attrs +:+
      (if is_void t then ""
       else (fix inner (after_text : bool) (ds : list DomNode) : string :=
               match ds with
               | [] => ""
               | d' :: ds' =>
                   (if after_text && bool_decide (dom_tag d' = None)
                    then text_separator else "")
                   +:+ outerHTML d' +:+ inner (bool_decide (dom_tag d' = None)) ds'
               end) false ds +:+ close_tag t)
  end.

Fixpoint innerHTML_from (after_text : bool) (ds : list DomNode) : string :=
  match ds with
  | [] => ""
  | d :: ds' =>
      (if after_text && bool_decide (dom_tag d = None) then text_separator else "")
      +:+ outerHTML d +:+ innerHTML_from (bool_decide (dom_tag d = None)) ds'
  end.

(** The markup of a tree: [renderToString]. *)
Definition renderToString (n : ReactNode) : string := innerHTML_from false (render n).

(** ** Lemmas *)

Lemma outerHTML_element t attrs ds :
  outerHTML (DElement t attrs ds)
  = open_tag t attrs +:+
    (if is_void t then "" else innerHTML_from false ds +:+ close_tag t).
Proof. simpl. by destruct (is_void t). Qed.

Lemma innerHTML_from_element b t attrs ds rest :
  innerHTML_from b (DElement t attrs ds :: rest)
  = outerHTML (DElement t attrs ds) +:+ innerHTML_from false rest.
Proof. simpl. by rewrite andb_false_r. Qed.

Lemma innerHTML_from_nil b : innerHTML_from b [] = "".
Proof. reflexivity. Qed.

Lemma render_all_app cs1 cs2 :
  render_all (cs1 ++ cs2) = render_all cs1 ++ render_all cs2.
Proof. unfold render_all. by rewrite map_app, concat_app. Qed.

Lemma render_all_cons c cs : render_all (c :: cs) = render c ++ render_all cs.
Proof. reflexivity. Qed.

Lemma render_fragment cs : render (RFragment cs) = render_all cs.
Proof. reflexivity. Qed.

Lemma render_element t ps cs :
  render (RElement t ps cs) = [DElement t (dom_attrs ps) (render_all cs)].
Proof. reflexivity. Qed.

Lemma render_element_one t ps c :
  render (RElement t ps [c]) = [DElement t (dom_attrs ps) (render c)].
Proof. simpl. by rewrite app_nil_r. Qed.

