(* ===== verification/Query.v ===== *)
(** Every match of a selector, and what the nesting check says of it.

    This file is a model of the library the sources call: the document
    answers [querySelectorAll] with every element that a selector matches,
    in document order, and a locator of the test API resolves to that list.
    As in [Dom], a selector is the name of a tag.  [querySelector] of [Dom]
    stops at the first match; here it is shown to return the head of the
    list of all matches.

    A tree that [nesting_ok] of [Nesting] accepts under an ordinary element
    renders to nodes in which no selector finds [html], [head], [body] or
    [frameset]: this is what makes a locator of [body] resolve to one
    element in a page inside the root layout. *)

From S2P Require Import Prelude.
From S2P Require Import Jsx.
From S2P Require Import Nesting.
From S2P Require Import Dom.

(** The elements with the given tag among a node and its descendants, in
    document order. *)
Fixpoint querySelectorAll (t : string) (d : DomNode) : list DomNode :=
  match d with
  | DText _ => []
  | DElement t' _ ds =>
      (if decide (t' = t) then [d] else []) ++ concat (map (querySelectorAll t) ds)
  end.

(** The same over the nodes of a document, or the children of an element. *)
Definition querySelectorAll_from (t : string) (ds : list DomNode) : list DomNode :=
  concat (map (querySelectorAll t) ds).

(** What a strict locator resolves to: the one element that matches, and
    nothing when no element or more than one matches. *)
Definition resolve_strict (t : string) (ds : list DomNode) : option DomNode :=
  match querySelectorAll_from t ds with
  | [d] => Some d
  | _ => None
  end.

(** ** Lemmas *)

Lemma querySelectorAll_from_cons t d ds :
  querySelectorAll_from t (d :: ds) = querySelectorAll t d ++ querySelectorAll_from t ds.
Proof. reflexivity. Qed.

Lemma querySelectorAll_from_one t d :
  querySelectorAll_from t [d] = querySelectorAll t d.
Proof. unfold querySelectorAll_from. simpl. apply app_nil_r. Qed.

Lemma querySelectorAll_from_app t ds1 ds2 :
  querySelectorAll_from t (ds1 ++ ds2)
  = querySelectorAll_from t ds1 ++ querySelectorAll_from t ds2.
Proof. unfold querySelectorAll_from. by rewrite map_app, concat_app. Qed.

Lemma querySelectorAll_element t t' attrs ds :
  querySelectorAll t (DElement t' attrs ds)
  = (if decide (t' = t) then [DElement t' attrs ds] else [])
    ++ querySelectorAll_from t ds.
Proof. reflexivity. Qed.

(** An element under which nothing matches adds itself or nothing. *)
Lemma querySelectorAll_from_leaf t t' attrs ds rest :
  querySelectorAll_from t ds = [] →
  querySelectorAll_from t (DElement t' attrs ds :: rest)
  = (if decide (t' = t) then [DElement t' attrs ds] else [])
    ++ querySelectorAll_from t rest.
Proof.
  intros Hds. by rewrite querySelectorAll_from_cons, querySelectorAll_element, Hds, app_nil_r.
Qed.

(** Every match carries the tag of the selector. *)
Lemma querySelectorAll_tag t d d' :
  d' ∈ querySelectorAll t d → dom_tag d' = Some t.
Proof.
  induction d as [s|t' attrs ds IH] using DomNode_ind; [by intros ?%elem_of_nil|].
  rewrite querySelectorAll_element, elem_of_app. intros [Hd|Hd].
  - case_decide as Ht; [|by apply elem_of_nil in Hd].
    apply list_elem_of_singleton in Hd. by subst.
  - induction IH as [|d0 ds Hd0 _ IHds]; [by apply elem_of_nil in Hd|].
    rewrite querySelectorAll_from_cons, elem_of_app in Hd. destruct Hd; auto.
Qed.

(** [querySelector] returns the first of all matches. *)
Lemma querySelector_first t d : querySelector t d = head (querySelectorAll t d).
Proof.
  induction d as [s|t' attrs ds IH] using DomNode_ind; [done|].
  rewrite querySelectorAll_element. simpl. case_decide; [done|]. simpl.
  induction IH as [|d ds Hd _ IHds]; [done|].
  rewrite querySelectorAll_from_cons, Hd, IHds.
  by destruct (querySelectorAll t d).
Qed.

(** A strict locator that resolves returns what [querySelector] returns. *)
Lemma resolve_strict_first t d ds r :
  resolve_strict t (d :: ds) = Some r → querySelectorAll_from t ds = [] →
  querySelector t d = Some r.
Proof.
  unfold resolve_strict. rewrite querySelectorAll_from_cons, querySelector_first.
  intros Hr Hds. rewrite Hds, app_nil_r in Hr.
  by destruct (querySelectorAll t d) as [|? [|]]; simplify_eq.
Qed.

(** ** Nesting *)

Section nesting.
Context (t : string) (Ht : t ∈ document_structure).

Lemma structure_absent_all cs (p : string) :
  Forall (λ c, ∀ p : string, flow p → nesting_ok p c = true →
               querySelectorAll_from t (render c) = []) cs →
  flow p → forallb (nesting_ok p) cs = true →
  querySelectorAll_from t (render_all cs) = [].
Proof.
  intros IH Hp. induction IH as [|c cs Hc _ IHcs]; [done|].
  cbn [forallb]. rewrite andb_true_iff. intros [Hc' Hcs].
  by rewrite render_all_cons, querySelectorAll_from_app, (Hc p), IHcs.
Qed.

(** No element of the structure of a document is found in what a tree
    renders to, when the tree is nested well under an ordinary element. *)
Lemma structure_absent n : ∀ p : string,
  flow p → nesting_ok p n = true → querySelectorAll_from t (render n) = [].
Proof.
  induction n as [|s|k|t' ps cs IH|cs IH] using ReactNode_ind; intros p Hp Hn.
  - done.
  - simpl. by case_decide.
  - done.
  - simpl in Hn. apply andb_true_iff in Hn as [Hv Hcs].
    apply (valid_under_flow _ _ Hp) in Hv as [Hs Hflow].
    rewrite render_element, querySelectorAll_from_leaf.
    + rewrite decide_False; [done|]. by intros ->.
    + by apply (structure_absent_all cs t').
  - rewrite render_fragment. by apply (structure_absent_all cs p).
Qed.

End nesting.
