(* ===== verification/Hydration.v ===== *)
(** Hydration: React attaching to the document that the server rendered.

    This file is a model of the library the sources call, written from the
    documented contract of [suppressHydrationWarning] and from the way React
    19 treats the elements of which a document has one, and kept to what the
    root layout relies on.  React walks the tree that the client renders and,
    beside it, the nodes of the document, which it consumes in order (the
    cursor of [hydrate]).  An element claims the node at the cursor; [html],
    [head] and [body], the singletons, claim the one element of their tag
    wherever it stands among the nodes that are left, and what stands before
    it is passed over.  React reports

    - an element whose attributes in the document differ from those the
      client renders, unless the element sets [suppressHydrationWarning];
    - a text node whose data differs, unless the element it is a direct
      child of sets [suppressHydrationWarning] (the flag goes one level deep
      and no further);
    - a node that is missing or of another kind, always;
    - document nodes left over under an element, except under the
      singletons and under [form] and [button], and except in the document
      itself: there, scripts and extensions are expected to add nodes. *)

From S2P Require Import Prelude.
From S2P Require Import Jsx.
From S2P Require Import Dom.

Inductive Mismatch : Type :=
| AttributeMismatch (tag : string) (names : list string)
| TextMismatch (server client : string)
| NodeMismatch (expected : string)
| ExtraNodes (parent : string) (count : nat).

#[export] Instance Mismatch_eq_dec : EqDecision Mismatch.
Proof. solve_decision. Defined.

(** The first value bound to an attribute name. *)
Definition attr_lookup (name : string) (a : Attrs) : option string :=
  snd <$> find (λ kv, bool_decide (kv.1 = name)) a.

(** The names on which two attribute lists disagree, either way. *)
Definition differing_attrs (server client : Attrs) : list string :=
  filter (λ k, attr_lookup k server ≠ attr_lookup k client)
    (remove_dups (client.*1 ++ server.*1)).

Definition attribute_mismatch (t : string) (server client : Attrs) : list Mismatch :=
  match differing_attrs server client with
  | [] => []
  | names => [AttributeMismatch t names]
  end.

Definition singletons : list string := ["html"; "head"; "body"].

Definition is_singleton (t : string) : bool := bool_decide (t ∈ singletons).

Definition tolerates_extra_nodes (t : string) : bool :=
  is_singleton t || bool_decide (t ∈ ["form"; "button"]).

Definition extra_nodes (t : string) (left : list DomNode) : list Mismatch :=
  match left with
  | [] => []
  | _ => if tolerates_extra_nodes t then [] else [ExtraNodes t (length left)]
  end.

Definition hydrate_text (sup : bool) (s : string) (cursor : list DomNode)
    : list Mismatch * list DomNode :=
  if decide (s = "") then ([], cursor)
  else match cursor with
       | DText s' :: rest =>
           (if sup || bool_decide (s' = s) then [] else [TextMismatch s' s], rest)
       | _ => ([NodeMismatch "#text"], cursor)
       end.

(** The first element of a tag among the nodes: its attributes, its
    children, and the nodes after it. *)
Fixpoint find_element (t : string) (nodes : list DomNode)
    : option (Attrs * list DomNode * list DomNode) :=
  match nodes with
  | [] => None
  | DElement t' attrs kids :: rest =>
      if decide (t' = t) then Some (attrs, kids, rest) else find_element t rest
  | DText _ :: rest => find_element t rest
  end.

(** The element of the document that an element of the tree claims: the
    node at the cursor, which must be an element of its tag; for a
    singleton, the first element of its tag from the cursor on. *)
Definition claim (t : string) (cursor : list DomNode)
    : option (Attrs * list DomNode * list DomNode) :=
  if is_singleton t then find_element t cursor
  else match cursor with
       | DElement t' attrs kids :: rest =>
           if decide (t' = t) then Some (attrs, kids, rest) else None
       | _ => None
       end.

(** [hydrate sup n cursor]: hydrate [n], a child of an element whose flag is
    [sup], against the document nodes at [cursor]; the mismatches and the
    nodes that are left. *)
Fixpoint hydrate (sup : bool) (n : ReactNode) (cursor : list DomNode)
    : list Mismatch * list DomNode :=
  let fix all (sup : bool) (cs : list ReactNode) (cursor : list DomNode) :=
    match cs with
    | [] => ([], cursor)
    | c :: cs' =>
        let r1 := hydrate sup c cursor in
        let r2 := all sup cs' r1.2 in
        (r1.1 ++ r2.1, r2.2)
    end in
  match n with
  | RNull => ([], cursor)
  | RText s => hydrate_text sup s cursor
  | RNumber k => hydrate_text sup (pretty k) cursor
  | RFragment cs => all sup cs cursor
  | RElement t ps cs =>
      match claim t cursor with
      | Some (attrs, kids, rest) =>
          let own := prop_is_true "suppressHydrationWarning" ps in
          let r := all own cs kids in
          ((if own then [] else attribute_mismatch t attrs (dom_attrs ps))
           ++ r.1 ++ extra_nodes t r.2, rest)
      | None => ([NodeMismatch t], cursor)
      end
  end.

Fixpoint hydrate_all (sup : bool) (cs : list ReactNode) (cursor : list DomNode)
    : list Mismatch * list DomNode :=
  match cs with
  | [] => ([], cursor)
  | c :: cs' =>
      let r1 := hydrate sup c cursor in
      let r2 := hydrate_all sup cs' r1.2 in
      (r1.1 ++ r2.1, r2.2)
  end.

(** Hydration of a whole document: the root against the nodes of the
    document.  What is left over in the document is not looked at. *)
Definition hydrateRoot (document : list DomNode) (n : ReactNode) : list Mismatch :=
  (hydrate false n document).1.

(** ** Lemmas *)

Lemma hydrate_element sup t ps cs cursor :
  hydrate sup (RElement t ps cs) cursor
  = match claim t cursor with
    | Some (attrs, kids, rest) =>
        let own := prop_is_true "suppressHydrationWarning" ps in
        let r := hydrate_all own cs kids in
        ((if own then [] else attribute_mismatch t attrs (dom_attrs ps))
         ++ r.1 ++ extra_nodes t r.2, rest)
    | None => ([NodeMismatch t], cursor)
    end.
Proof. reflexivity. Qed.

(** An element claims the element of its tag at the cursor. *)
Lemma claim_head t attrs kids rest :
  claim t (DElement t attrs kids :: rest) = Some (attrs, kids, rest).
Proof.
  unfold claim. destruct (is_singleton t); simpl; by rewrite decide_True.
Qed.

Lemma find_element_app t before attrs kids rest :
  find_element t before = None →
  find_element t (before ++ DElement t attrs kids :: rest) = Some (attrs, kids, rest).
Proof.
  induction before as [|[s|t' attrs' kids'] before IH]; simpl.
  - by rewrite decide_True.
  - done.
  - by case_decide.
Qed.

(** A singleton claims the element of its tag past the nodes that stand
    before it. *)
Lemma claim_singleton t before attrs kids rest :
  is_singleton t = true → find_element t before = None →
  claim t (before ++ DElement t attrs kids :: rest) = Some (attrs, kids, rest).
Proof. intros Ht Hb. unfold claim. rewrite Ht. by apply find_element_app. Qed.

Lemma extra_nodes_tolerated t ds : tolerates_extra_nodes t = true → extra_nodes t ds = [].
Proof. intros Ht. unfold extra_nodes. rewrite Ht. by destruct ds. Qed.

(** An element that sets the flag and holds one child: its attributes are
    not compared, and its child is hydrated under the flag. *)
Lemma hydrate_flagged_one sup t ps c attrs kids rest :
  prop_is_true "suppressHydrationWarning" ps = true →
  hydrate sup (RElement t ps [c]) (DElement t attrs kids :: rest)
  = ((hydrate true c kids).1 ++ extra_nodes t (hydrate true c kids).2, rest).
Proof.
  intros Hflag. rewrite hydrate_element, claim_head. cbv zeta.
  rewrite Hflag. simpl. by rewrite app_nil_r.
Qed.

(** The same for a singleton that stands past other nodes. *)
Lemma hydrate_flagged_singleton sup t ps c before attrs kids rest :
  prop_is_true "suppressHydrationWarning" ps = true →
  is_singleton t = true → find_element t before = None →
  hydrate sup (RElement t ps [c]) (before ++ DElement t attrs kids :: rest)
  = ((hydrate true c kids).1, rest).
Proof.
  intros Hflag Ht Hb. rewrite hydrate_element, claim_singleton by done. cbv zeta.
  rewrite Hflag, extra_nodes_tolerated by (unfold tolerates_extra_nodes; by rewrite Ht).
  simpl. by rewrite !app_nil_r.
Qed.

Lemma hydrate_fragment sup cs cursor :
  hydrate sup (RFragment cs) cursor = hydrate_all sup cs cursor.
Proof. reflexivity. Qed.

Lemma hydrate_all_cons sup c cs cursor :
  hydrate_all sup (c :: cs) cursor
  = ((hydrate sup c cursor).1 ++ (hydrate_all sup cs (hydrate sup c cursor).2).1,
     (hydrate_all sup cs (hydrate sup c cursor).2).2).
Proof. reflexivity. Qed.

Lemma hydrate_all_app sup cs1 cs2 cursor :
  hydrate_all sup (cs1 ++ cs2) cursor
  = let r1 := hydrate_all sup cs1 cursor in
    let r2 := hydrate_all sup cs2 r1.2 in
    (r1.1 ++ r2.1, r2.2).
Proof.
  revert cursor. induction cs1 as [|c cs1 IH]; intros cursor; simpl.
  - by destruct (hydrate_all sup cs2 cursor).
  - rewrite IH. simpl. by rewrite app_assoc.
Qed.

Lemma attr_lookup_refl_filter (a : Attrs) (l : list string) :
  filter (λ k, attr_lookup k a ≠ attr_lookup k a) l = [].
Proof. induction l as [|k l IH]; [done|]. by rewrite filter_cons_False by auto. Qed.

Lemma differing_attrs_refl a : differing_attrs a a = [].
Proof. apply attr_lookup_refl_filter. Qed.

Lemma attribute_mismatch_refl t a : attribute_mismatch t a a = [].
Proof. unfold attribute_mismatch. by rewrite differing_attrs_refl. Qed.

Lemma hydrate_text_render sup s rest :
  hydrate_text sup s ((if decide (s = "") then [] else [DText s]) ++ rest)
  = ([], rest).
Proof.
  unfold hydrate_text. case_decide; [done|]. simpl.
  by rewrite bool_decide_eq_true_2, orb_true_r.
Qed.

Lemma hydrate_number sup (k : Z) rest :
  hydrate_text sup (pretty k) (DText (pretty k) :: rest) = ([], rest).
Proof.
  unfold hydrate_text. rewrite decide_False by apply pretty_Z_nonempty.
  by rewrite bool_decide_eq_true_2, orb_true_r.
Qed.

Lemma extra_nodes_body ds : extra_nodes "body" ds = [].
Proof. by destruct ds. Qed.

(** If every node of a list hydrates cleanly against its own rendering, so
    does the list. *)
Lemma hydrate_all_render_Forall sup cs rest :
  Forall (λ c, ∀ sup rest, hydrate sup c (render c ++ rest) = ([], rest)) cs →
  hydrate_all sup cs (render_all cs ++ rest) = ([], rest).
Proof.
  intros Hcs. revert rest. induction Hcs as [|c cs Hc _ IH]; intros rest.
  - done.
  - rewrite render_all_cons, <- app_assoc, hydrate_all_cons, Hc. simpl.
    by rewrite IH.
Qed.

(** A tree hydrates against its own rendering without a mismatch, and
    consumes exactly the nodes it rendered. *)
Lemma hydrate_render sup n rest :
  hydrate sup n (render n ++ rest) = ([], rest).
Proof.
  revert sup rest.
  induction n as [|s|k|t ps cs IH|cs IH] using ReactNode_ind; intros sup rest.
  - done.
  - apply hydrate_text_render.
  - apply hydrate_number.
  - change (render (RElement t ps cs) ++ rest)
      with (DElement t (dom_attrs ps) (render_all cs) :: rest).
    pose proof (hydrate_all_render_Forall
      (prop_is_true "suppressHydrationWarning" ps) cs [] IH) as Hkids.
    rewrite app_nil_r in Hkids.
    rewrite hydrate_element, claim_head. cbv zeta.
    rewrite Hkids, attribute_mismatch_refl. by destruct (prop_is_true _ _).
  - rewrite hydrate_fragment. by apply hydrate_all_render_Forall.
Qed.

Lemma hydrate_all_render sup cs rest :
  hydrate_all sup cs (render_all cs ++ rest) = ([], rest).
Proof.
  apply hydrate_all_render_Forall, Forall_forall. intros c _ sup' rest'.
  apply hydrate_render.
Qed.

Lemma hydrateRoot_render n : hydrateRoot (render n) n = [].
Proof.
  unfold hydrateRoot. rewrite <- (app_nil_r (render n)).
  by rewrite hydrate_render.
Qed.

(** Nodes that are added at the end of the document do not show. *)
Lemma hydrateRoot_render_app n appended : hydrateRoot (render n ++ appended) n = [].
Proof. unfold hydrateRoot. by rewrite hydrate_render. Qed.
