(* ===== verification/Layout.v ===== *)
(** The root layout, [src/app/layout.tsx]: the page metadata and the
    component that produces the [html] and [body] shell of every page.

    [metadata], the import of the style sheet ([side_effect_imports]) and
    [RootLayout] are translated from the source.  The theorems say what the
    shell is as a tree (one [body] under one [html], the content alone
    inside), that it is nested as a document must be, what a selector finds
    in its document (one [html], one [body], no [head], when the content is
    nested well), what document and what markup it renders to on the
    server, and that the two [suppressHydrationWarning] flags do what they
    are there for: whatever attributes the [html] and [body] elements carry
    when React hydrates, and whatever stands beside them, the shell reports
    nothing. *)

From S2P Require Import Prelude.
From S2P Require Import Jsx.
From S2P Require Import Nesting.
From S2P Require Import Dom.
From S2P Require Import Query.
From S2P Require Import Hydration.

(** The two fields of Next's [Metadata] type that the source sets.  Both are
    optional in that type. *)
Record Metadata : Type := {
  title : option string;
  description : option string;
}.

Definition metadata : Metadata := {|
  title := Some "Vibe Coding Template";
  description := Some "A production-ready Next.js template";
|}.

(** The modules that the layout imports for their effect alone: the global
    style sheet, which the framework links from every page that the layout
    wraps. *)
Definition side_effect_imports : list string := ["./globals.css"].

(** The properties object that [RootLayout] destructures. *)
Record RootLayoutProps : Type := {
  children : ReactNode;
}.

Definition RootLayout (props : RootLayoutProps) : ReactNode :=
  RElement "html" [("lang", PString "en"); ("suppressHydrationWarning", PBool true)]
    [RElement "body" [("suppressHydrationWarning", PBool true)]
       [children props]].

(** ** Specification: the shell as a context

    A layout that places its content at one position of a fixed tree is a
    one-hole context.  [shell] is that context for [RootLayout]. *)
Definition shell : Ctx :=
  CElement "html" [("lang", PString "en"); ("suppressHydrationWarning", PBool true)] []
    (CElement "body" [("suppressHydrationWarning", PBool true)] [] CHole [])
    [].

(** The document as the browser receives it, with the attributes that the
    [html] and [body] elements carry at that time and the nodes under
    [body]. *)
Definition shell_document (html_attrs body_attrs : Attrs) (body_nodes : list DomNode)
    : list DomNode :=
  [DElement "html" html_attrs [DElement "body" body_attrs body_nodes]].

(** A page with a heading and two texts in a row, one with characters that
    markup escapes. *)
Definition sample_props : RootLayoutProps := {|
  children :=
    RElement "main" [("className", PString "page")]
      [RElement "h1" [] [RText "Welcome"]; RText "1 < 2"; RText " & so on";
       RElement "br" [] []];
|}.

(** ** The metadata *)

(** Both fields of [metadata] are set, and neither is the empty string. *)
Theorem metadata_fields_nonempty :
  ∃ t d, title metadata = Some t ∧ description metadata = Some d ∧
         t ≠ "" ∧ d ≠ "".
Proof. by eexists _, _. Qed.

(** ** The shell as a tree *)

Lemma RootLayout_plug props : RootLayout props = plug shell (children props).
Proof. reflexivity. Qed.

(** C1. For every content tree, the document that [RootLayout] returns has
    exactly one [body] element under its root, and the children of that
    element are the content tree alone, unchanged. *)
Theorem RootLayout_body_sole_child (props : RootLayoutProps) :
  node_type (RootLayout props) = Some "html" ∧
  node_children <$> child_elements "body" (RootLayout props)
  = [[children props]] ∧
  length (node_children (RootLayout props)) = 1.
Proof. done. Qed.

(** ** Nesting *)

(** C10. The shell is nested as a document must be, and puts its content where
    content of [body] stands: the document is nested well exactly when the
    content is nested well under [body]. *)
Theorem RootLayout_nesting props :
  nesting_ok Document (RootLayout props) = nesting_ok "body" (children props).
Proof. unfold RootLayout. cbn. by rewrite !andb_true_r. Qed.


(** ** The rendered document *)

(** C7. The document on the server: [html] carries [lang] and nothing else,
    [body] carries no attribute (the hydration flag never reaches the
    document), and the nodes under [body] are those of the content. *)
Theorem RootLayout_render props :
  render (RootLayout props) = shell_document [("lang", "en")] [] (render (children props)).
Proof.
  unfold RootLayout, shell_document.
  by rewrite render_element, render_all_cons, render_element_one.
Qed.

(** Write what a selector finds in the document of the shell as what it
    finds in the content, after the elements of the shell that it
    selects. *)
Ltac shell_selectors :=
  unfold resolve_strict, RootLayout;
  rewrite ?render_element, ?render_all_cons, ?render_element_one, ?app_nil_r;
  rewrite ?querySelectorAll_from_one, ?querySelectorAll_element;
  rewrite ?querySelectorAll_from_one, ?querySelectorAll_element.

(** What a selector finds in the document: the root when it selects [html],
    the [body] of the shell when it selects [body], and what it finds in
    the content. *)
Lemma RootLayout_querySelectorAll t props :
  querySelectorAll_from t (render (RootLayout props))
  = (if decide ("html" = t) then render (RootLayout props) else [])
    ++ (if decide ("body" = t) then [DElement "body" [] (render (children props))] else [])
    ++ querySelectorAll_from t (render (children props)).
Proof. by shell_selectors. Qed.

(** C11. In the document of a page whose content is nested well under [body],
    a selector finds one [html] element, the root, one [body] element, whose
    children are the nodes of the content, and no [head]: a locator of
    [body] resolves to one element, as a strict locator must. *)
Theorem RootLayout_one_body props :
  nesting_ok "body" (children props) = true →
  querySelectorAll_from "html" (render (RootLayout props)) = render (RootLayout props) ∧
  resolve_strict "body" (render (RootLayout props))
  = Some (DElement "body" [] (render (children props))) ∧
  querySelectorAll_from "head" (render (RootLayout props)) = [].
Proof.
  intros Hn. shell_selectors.
  by rewrite !(λ t Ht, structure_absent t Ht _ "body" flow_body Hn)
    by (by apply (bool_decide_unpack _)).
Qed.

(** Write the markup of the shell as the markup of its content between its
    tags. *)
Ltac shell_markup :=
  unfold renderToString, RootLayout;
  rewrite render_element, render_all_cons, render_element_one, app_nil_r;
  rewrite !innerHTML_from_element, !outerHTML_element, !innerHTML_from_nil;
  change (is_void "html") with false; change (is_void "body") with false;
  rewrite innerHTML_from_element, outerHTML_element, innerHTML_from_nil;
  change (is_void "body") with false;
  vm_compute open_tag; vm_compute close_tag; autorewrite with vibe.

(** C8. The markup of the document is the markup of the content between the
    opening and the closing tags of the shell. *)
Theorem RootLayout_renderToString props :
  renderToString (RootLayout props)
  = "<html lang=" +:+ dquote +:+ "en" +:+ dquote +:+ "><body>"
    +:+ renderToString (children props) +:+ "</body></html>".
Proof. by shell_markup. Qed.

(** The shell adds 36 characters to the markup of every page, whatever the
    page: the length of the markup of the document is that of the markup of
    the content and 36. *)
Theorem RootLayout_markup_length props :
  String.length (renderToString (RootLayout props))
  = 36 + String.length (renderToString (children props)).
Proof. shell_markup. cbn [String.length]. rewrite string_length_app. simpl. lia. Qed.

(** ** Hydration of the shell *)

(** Hydrate the two elements of the shell, each of which sets the flag and
    holds one child. *)
Ltac hydrate_shell :=
  unfold RootLayout, shell_document; cbv zeta; cbn [app];
  rewrite !hydrate_flagged_one by done;
  rewrite ?extra_nodes_body; cbn [fst snd extra_nodes]; rewrite ?app_nil_r.

(** C2. Whatever attributes the [html] and [body] elements of the document
    carry when React hydrates, and whatever nodes stand under [body], the
    mismatches that hydration reports for the document are those of the
    content against the nodes under [body], with the text directly under
    [body] exempt: the shell itself reports nothing. *)
Theorem RootLayout_hydrate_shell sup props html_attrs body_attrs body_nodes rest :
  hydrate sup (RootLayout props)
    (shell_document html_attrs body_attrs body_nodes ++ rest)
  = ((hydrate true (children props) body_nodes).1, rest).
Proof. by hydrate_shell. Qed.

(** C6. The document that the server rendered for the shell hydrates without
    a mismatch even after the attributes of [html] and [body] were replaced
    and nodes were appended to [body], as browser extensions do before React
    starts. *)
Theorem RootLayout_hydrateRoot_clean props html_attrs body_attrs appended :
  hydrateRoot
    (shell_document html_attrs body_attrs (render (children props) ++ appended))
    (RootLayout props)
  = [].
Proof. unfold hydrateRoot. hydrate_shell. by rewrite hydrate_render. Qed.

(** C12. Whatever stands before [html] in the document, and beside [body] under
    [html] (the head that the framework adds, the nodes that scripts add),
    the shell finds its two elements and reports nothing: the mismatches are
    those of the content against the nodes under [body]. *)
Theorem RootLayout_hydrate_document sup props above html_attrs before body_attrs
    body_nodes after rest :
  find_element "html" above = None → find_element "body" before = None →
  hydrate sup (RootLayout props)
    (above ++
     DElement "html" html_attrs
       (before ++ DElement "body" body_attrs body_nodes :: after) :: rest)
  = ((hydrate true (children props) body_nodes).1, rest).
Proof.
  intros Habove Hbefore. unfold RootLayout.
  by rewrite !hydrate_flagged_singleton.
Qed.

(** C13. The flag on [body] reaches the text directly under [body] and no
    further: a text of the content that differs from the document is passed
    over when it stands under [body] itself, and reported when it stands
    inside an element of the content that does not set the flag. *)
Theorem RootLayout_flag_one_level html_attrs body_attrs t ps s s' :
  s ≠ "" → s' ≠ s →
  prop_is_true "suppressHydrationWarning" ps = false →
  hydrateRoot (shell_document html_attrs body_attrs [DText s'])
    (RootLayout {| children := RText s |}) = [] ∧
  hydrateRoot (shell_document html_attrs body_attrs [DElement t (dom_attrs ps) [DText s']])
    (RootLayout {| children := RElement t ps [RText s] |}) = [TextMismatch s' s].
Proof.
  intros Hs Hss Hflag. unfold hydrateRoot. split; hydrate_shell; cbn [children].
  - simpl. unfold hydrate_text. by rewrite decide_False.
  - rewrite hydrate_element, claim_head. cbv zeta.
    rewrite Hflag, attribute_mismatch_refl. simpl. unfold hydrate_text.
    by rewrite decide_False, bool_decide_eq_false_2 by done.
Qed.

(** ** Witnesses *)

Lemma RootLayout_hydrate_document_witness :
  hydrate false (RootLayout sample_props)
    ([DText "doctype"] ++
     DElement "html" [("class", "dark")]
       ([DElement "head" [] [DElement "title" [] [DText "Home"]]] ++
        DElement "body" [] (render (children sample_props))
        :: [DElement "script" [] []]) :: [])
  = ((hydrate true (children sample_props) (render (children sample_props))).1, []).
Proof. by apply (RootLayout_hydrate_document false sample_props). Defined.

Lemma RootLayout_flag_one_level_witness :
  hydrateRoot (shell_document [] [] [DText "12:00"])
    (RootLayout {| children := RText "12:01" |}) = [] ∧
  hydrateRoot (shell_document [] [] [DElement "p" (dom_attrs []) [DText "12:00"]])
    (RootLayout {| children := RElement "p" [] [RText "12:01"] |})
  = [TextMismatch "12:00" "12:01"].
Proof. by apply (RootLayout_flag_one_level [] [] "p" [] "12:01" "12:00"). Defined.

Lemma RootLayout_one_body_witness :
  querySelectorAll_from "html" (render (RootLayout sample_props))
  = render (RootLayout sample_props) ∧
  resolve_strict "body" (render (RootLayout sample_props))
  = Some (DElement "body" [] (render (children sample_props))) ∧
  querySelectorAll_from "head" (render (RootLayout sample_props)) = [].
Proof. apply (RootLayout_one_body sample_props). by vm_compute. Defined.
