(* ===== verification/RegExp.v ===== *)
(** Regular expressions, for the pattern that the suite passes to
    [toHaveTitle].

    This file is a model of the language's [RegExp] for the patterns built
    from characters, [.], sequence, alternation and [*], without flags.
    [Matches] is the language of a pattern; [regexp_test] is
    [RegExp.prototype.test], which looks for a match anywhere in the string.
    A string is a sequence of bytes here, and [.] rejects the line feed and
    the carriage return. *)

From S2P Require Import Prelude.

Inductive RegExp : Type :=
| ReVoid
| ReEps
| ReChar (c : ascii)
| ReDot
| ReSeq (r1 r2 : RegExp)
| ReAlt (r1 r2 : RegExp)
| ReStar (r : RegExp).

#[export] Instance RegExp_eq_dec : EqDecision RegExp.
Proof. solve_decision. Defined.

Definition is_line_terminator (c : ascii) : bool :=
  bool_decide (c = ascii_of_nat 10 ∨ c = ascii_of_nat 13).

(** ** The language of a pattern *)

Inductive Matches : RegExp → string → Prop :=
| MEps : Matches ReEps ""
| MChar c : Matches (ReChar c) (String c "")
| MDot c : is_line_terminator c = false → Matches ReDot (String c "")
| MSeq r1 r2 s1 s2 :
    Matches r1 s1 → Matches r2 s2 → Matches (ReSeq r1 r2) (s1 +:+ s2)
| MAltL r1 r2 s : Matches r1 s → Matches (ReAlt r1 r2) s
| MAltR r1 r2 s : Matches r2 s → Matches (ReAlt r1 r2) s
| MStarNil r : Matches (ReStar r) ""
| MStarCons r s1 s2 :
    Matches r s1 → Matches (ReStar r) s2 → Matches (ReStar r) (s1 +:+ s2).

(** ** The matcher *)

(** Whether the pattern matches the empty string. *)
Fixpoint nullable (r : RegExp) : bool :=
  match r with
  | ReVoid | ReChar _ | ReDot => false
  | ReEps | ReStar _ => true
  | ReSeq r1 r2 => nullable r1 && nullable r2
  | ReAlt r1 r2 => nullable r1 || nullable r2
  end.

(** What is left of the pattern once it has read [c]. *)
Fixpoint deriv (c : ascii) (r : RegExp) : RegExp :=
  match r with
  | ReVoid | ReEps => ReVoid
  | ReChar c' => if decide (c = c') then ReEps else ReVoid
  | ReDot => if is_line_terminator c then ReVoid else ReEps
  | ReSeq r1 r2 =>
      if nullable r1 then ReAlt (ReSeq (deriv c r1) r2) (deriv c r2)
      else ReSeq (deriv c r1) r2
  | ReAlt r1 r2 => ReAlt (deriv c r1) (deriv c r2)
  | ReStar r' => ReSeq (deriv c r') (ReStar r')
  end.

(** The pattern matches the whole string. *)
Fixpoint matches (r : RegExp) (s : string) : bool :=
  match s with
  | "" => nullable r
  | String c s' => matches (deriv c r) s'
  end.

(** The pattern matches a prefix of the string. *)
Fixpoint matches_prefix (r : RegExp) (s : string) : bool :=
  nullable r ||
  match s with
  | "" => false
  | String c s' => matches_prefix (deriv c r) s'
  end.

(** The pattern matches somewhere in the string. *)
Fixpoint regexp_test (r : RegExp) (s : string) : bool :=
  matches_prefix r s ||
  match s with
  | "" => false
  | String _ s' => regexp_test r s'
  end.

(** ** The matcher decides the language *)

Lemma string_app_eq_nil (s1 s2 : string) : s1 +:+ s2 = "" → s1 = "" ∧ s2 = "".
Proof. by destruct s1. Qed.

Lemma Matches_seq_inv r1 r2 s :
  Matches (ReSeq r1 r2) s ↔ ∃ s1 s2, s = s1 +:+ s2 ∧ Matches r1 s1 ∧ Matches r2 s2.
Proof.
  split.
  - inversion 1; subst. eauto.
  - intros (s1 & s2 & -> & ? & ?). by constructor.
Qed.

Lemma Matches_alt_inv r1 r2 s :
  Matches (ReAlt r1 r2) s ↔ Matches r1 s ∨ Matches r2 s.
Proof.
  split.
  - inversion 1; subst; auto.
  - intros [?|?]; [by apply MAltL|by apply MAltR].
Qed.

Lemma Matches_void_inv s : ¬ Matches ReVoid s.
Proof. inversion 1. Qed.

Lemma Matches_eps_inv s : Matches ReEps s ↔ s = "".
Proof. split; [by inversion 1|intros ->; constructor]. Qed.

Lemma nullable_correct r : nullable r = true ↔ Matches r "".
Proof.
  induction r as [| |c| |r1 IH1 r2 IH2|r1 IH1 r2 IH2|r IH]; simpl.
  - split; [done|]. by intros ?%Matches_void_inv.
  - split; [constructor|done].
  - split; [done|inversion 1].
  - split; [done|inversion 1].
  - rewrite andb_true_iff, IH1, IH2, Matches_seq_inv. split.
    + intros [??]. by exists "", "".
    + intros (s1 & s2 & [-> ->]%eq_sym%string_app_eq_nil & ? & ?). done.
  - by rewrite orb_true_iff, IH1, IH2, Matches_alt_inv.
  - split; [constructor|done].
Qed.

(** A non-empty match of [r*] starts with a non-empty match of [r]. *)
Lemma Matches_star_cons_inv_gen r0 s0 :
  Matches r0 s0 → ∀ r c s, r0 = ReStar r → s0 = String c s →
  ∃ s1 s2, s = s1 +:+ s2 ∧ Matches r (String c s1) ∧ Matches (ReStar r) s2.
Proof.
  induction 1 as [| | | | | | |r' s1 s2 H1 _ H2 IH2]; intros rr cc ss Hr Hs;
    try discriminate.
  injection Hr as ->. destruct s1 as [|c1 s1].
  - by apply IH2.
  - rewrite string_app_cons in Hs. injection Hs as -> <-. eauto.
Qed.

Lemma Matches_star_cons_inv r c s :
  Matches (ReStar r) (String c s) →
  ∃ s1 s2, s = s1 +:+ s2 ∧ Matches r (String c s1) ∧ Matches (ReStar r) s2.
Proof. intros Hm. by eapply Matches_star_cons_inv_gen. Qed.

Lemma deriv_correct c r s : Matches (deriv c r) s ↔ Matches r (String c s).
Proof.
  revert s.
  induction r as [| |c'| |r1 IH1 r2 IH2|r1 IH1 r2 IH2|r IH]; intros s; simpl.
  - split; [by intros ?%Matches_void_inv|inversion 1].
  - split; [by intros ?%Matches_void_inv|inversion 1].
  - case_decide as Hc; [subst c'|].
    + rewrite Matches_eps_inv. split; [intros ->; constructor|by inversion 1].
    + split; [by intros ?%Matches_void_inv|]. inversion 1; by subst.
  - destruct (is_line_terminator c) eqn:Hlt.
    + split; [by intros ?%Matches_void_inv|]. inversion 1; congruence.
    + rewrite Matches_eps_inv. split; [intros ->; by constructor|by inversion 1].
  - assert (Matches (ReSeq (deriv c r1) r2) s ↔
            ∃ s1 s2, s = s1 +:+ s2 ∧ Matches r1 (String c s1) ∧ Matches r2 s2)
      as Hseq.
    { rewrite Matches_seq_inv. by setoid_rewrite IH1. }
    rewrite (Matches_seq_inv r1 r2 (String c s)).
    destruct (nullable r1) eqn:Hn.
    + rewrite Matches_alt_inv, Hseq, IH2. apply nullable_correct in Hn. split.
      * intros [(s1 & s2 & -> & ? & ?)|?].
        -- exists (String c s1), s2. by rewrite string_app_cons.
        -- by exists "", (String c s).
      * intros ([|c1 s1] & s2 & Hs & ? & ?).
        -- right. by rewrite string_app_nil_l in Hs; subst.
        -- left. rewrite string_app_cons in Hs. injection Hs as -> ->. eauto.
    + rewrite Hseq. split.
      * intros (s1 & s2 & -> & ? & ?). exists (String c s1), s2.
        by rewrite string_app_cons.
      * intros ([|c1 s1] & s2 & Hs & Hm1 & ?).
        -- apply nullable_correct in Hm1. congruence.
        -- rewrite string_app_cons in Hs. injection Hs as -> ->. eauto.
  - by rewrite !Matches_alt_inv, IH1, IH2.
  - rewrite Matches_seq_inv. setoid_rewrite IH. split.
    + intros (s1 & s2 & -> & ? & ?).
      rewrite <- string_app_cons. by constructor.
    + apply Matches_star_cons_inv.
Qed.

(** [matches] decides the language of the pattern. *)
Theorem matches_correct r s : matches r s = true ↔ Matches r s.
Proof.
  revert r. induction s as [|c s IH]; intros r; simpl.
  - apply nullable_correct.
  - by rewrite IH, deriv_correct.
Qed.

(** [matches_prefix] holds when a prefix of the string is in the language. *)
Theorem matches_prefix_correct r s :
  matches_prefix r s = true ↔ ∃ s1 s2, s = s1 +:+ s2 ∧ Matches r s1.
Proof.
  revert r. induction s as [|c s IH]; intros r; simpl.
  - rewrite orb_false_r, nullable_correct. split.
    + intros ?. by exists "", "".
    + by intros (s1 & s2 & [-> ->]%eq_sym%string_app_eq_nil & ?).
  - rewrite orb_true_iff, nullable_correct, IH. setoid_rewrite deriv_correct.
    split.
    + intros [?|(s1 & s2 & -> & ?)].
      * by exists "", (String c s).
      * exists (String c s1), s2. by rewrite string_app_cons.
    + intros ([|c1 s1] & s2 & Hs & ?); [by left|right].
      rewrite string_app_cons in Hs. injection Hs as -> ->. eauto.
Qed.

(** [regexp_test] holds when a substring is in the language. *)
Theorem regexp_test_correct r s :
  regexp_test r s = true ↔ ∃ s0 s1 s2, s = s0 +:+ s1 +:+ s2 ∧ Matches r s1.
Proof.
  induction s as [|c s IH]; cbn [regexp_test].
  - rewrite orb_false_r, matches_prefix_correct. split.
    + intros (s1 & s2 & ? & ?). by exists "", s1, s2.
    + intros (s0 & s1 & s2 & Hs & ?). symmetry in Hs.
      apply string_app_eq_nil in Hs as [-> Hs]. eauto.
  - rewrite orb_true_iff, matches_prefix_correct, IH. split.
    + intros [(s1 & s2 & ? & ?)|(s0 & s1 & s2 & -> & ?)].
      * by exists "", s1, s2.
      * exists (String c s0), s1, s2. by rewrite string_app_cons.
    + intros ([|c0 s0] & s1 & s2 & Hs & ?).
      * left. rewrite string_app_nil_l in Hs. eauto.
      * right. rewrite string_app_cons in Hs. injection Hs as -> ->. eauto.
Qed.

(** A pattern that matches the empty string is found in every string. *)
Lemma regexp_test_nullable r s : nullable r = true → regexp_test r s = true.
Proof. intros Hn. destruct s; simpl; by rewrite Hn. Qed.

(** ** The pattern [.*] *)

Fixpoint has_line_terminator (s : string) : bool :=
  match s with
  | "" => false
  | String c s' => is_line_terminator c || has_line_terminator s'
  end.

Lemma has_line_terminator_app s1 s2 :
  has_line_terminator (s1 +:+ s2)
  = has_line_terminator s1 || has_line_terminator s2.
Proof.
  induction s1 as [|c s1 IH]; [done|].
  rewrite string_app_cons. simpl. by rewrite IH, orb_assoc.
Qed.

Lemma Matches_star_dot_gen r s :
  Matches r s → r = ReDot ∨ r = ReStar ReDot → has_line_terminator s = false.
Proof.
  induction 1 as [| |c Hc| | | |r|r s1 s2 H1 IH1 H2 IH2]; intros [Hr|Hr];
    try discriminate; simpl; try done.
  - by rewrite Hc.
  - injection Hr as ->. rewrite has_line_terminator_app, IH1, IH2; auto.
Qed.

(** As a match of the whole string, [.*] accepts the strings of one line. *)
Lemma Matches_star_dot s :
  Matches (ReStar ReDot) s ↔ has_line_terminator s = false.
Proof.
  split.
  - intros Hm. eapply Matches_star_dot_gen; eauto.
  - induction s as [|c s IH]; simpl; [constructor|].
    intros [Hc Hs]%orb_false_iff.
    change (String c s) with (String c "" +:+ s).
    constructor; [by constructor|auto].
Qed.
