(* ===== verification/Playwright.v ===== *)
(** The browser as the smoke suite sees it.

    This file is the interface between the suite and its environment, the
    Playwright library and the browser it drives; neither is part of the
    repository.  [Browser] lists the observations and actions that the suite
    uses, and how a page changes while a test waits; [BrowserLaws] and
    [Settles] say what the suite may assume of them.  On top of the interface
    the file defines the calls of the test API ([page.goto],
    [expect.toHaveURL], ...) as computations in the monad [SE], and the
    runner, which gives every test a page of its own.

    An expectation retries: it looks at the page, and while what it expects
    does not hold it waits one interval and looks again, until the timeout of
    the configuration has passed ([poll]).  The timeout is the fuel of the
    loop, counted in intervals. *)

From S2P Require Import Prelude.
From S2P Require Import RegExp.

Record ViewportSize : Type := {
  width : Z;
  height : Z;
}.

#[export] Instance ViewportSize_eq_dec : EqDecision ViewportSize.
Proof. solve_decision. Defined.

(** What a test can fail with: a navigation that is rejected, or an
    expectation that does not hold when its time is out. *)
Inductive TestError : Type :=
| GotoFailed (url : string)
| ToHaveURLFailed (expected received : string)
| ToHaveTitleFailed (received : string)
| ToBeVisibleFailed (selector : string).

#[export] Instance TestError_eq_dec : EqDecision TestError.
Proof. solve_decision. Defined.

(** ** The interface *)

Class Browser (Page : Type) : Type := {
  (** the page that the [page] fixture gives to a test: a new page in a new
      context *)
  br_new_page : Page;
  (** navigation to a URL, resolved against the base URL; [None] when the
      navigation is rejected *)
  br_goto : string → Page → option Page;
  (** the URL of the page *)
  br_url : Page → string;
  (** the title of the document *)
  br_title : Page → string;
  (** a change of the size of the viewport *)
  br_set_viewport : ViewportSize → Page → Page;
  (** whether the selector resolves to a visible element *)
  br_visible : string → Page → bool;
  (** a URL resolved against the base URL of the configuration *)
  br_resolve : string → string;
  (** the page one polling interval later *)
  br_wait : Page → Page;
  (** the number of intervals that an expectation waits before it gives up *)
  br_timeout : nat;
}.

(** What the suite may assume of a browser: the size of the viewport has no
    part in where a navigation leads, and a change of size leaves the URL
    and the title as they are. *)
Class BrowserLaws (Page : Type) {BR : Browser Page} : Prop := {
  br_goto_set_viewport v u p :
    br_goto u (br_set_viewport v p) = br_set_viewport v <$> br_goto u p;
  br_url_set_viewport v p : br_url (br_set_viewport v p) = br_url p;
  br_title_set_viewport v p : br_title (br_set_viewport v p) = br_title p;
}.

(** A browser settles when a page that a navigation has returned does not
    change any more while the test waits. *)
Class Settles (Page : Type) {BR : Browser Page} : Prop := {
  br_goto_settled u p p' : br_goto u p = Some p' → br_wait p' = p';
}.

(** ** Retrying *)

Section poll.
Context {Page : Type} (wait : Page → Page) (holds : Page → bool).

(** Look at the page; while [holds] fails and fuel is left, wait and look
    again.  The result is the page on which [holds] succeeded, or the page of
    the last look. *)
Fixpoint poll (fuel : nat) (p : Page) : result Page Page :=
  if holds p then Ok p
  else match fuel with
       | 0 => Err p
       | S fuel' => poll fuel' (wait p)
       end.

End poll.

(** ** The test API *)

Record Locator : Type := {
  selector : string;
}.

(** A step of a test: an awaited call. *)
Definition Step (Page : Type) : Type := SE Page TestError unit.

Module page.
Section page.
Context {Page : Type} {BR : Browser Page}.

Definition goto (url : string) : Step Page :=
  λ p, match br_goto url p with
       | Some p' => Ok (tt, p')
       | None => Err (GotoFailed url)
       end.

Definition setViewportSize (v : ViewportSize) : Step Page :=
  λ p, Ok (tt, br_set_viewport v p).

Definition locator (sel : string) : Locator := {| selector := sel |}.

End page.
End page.

Module expect.
Section expect.
Context {Page : Type} {BR : Browser Page}.

(** An expectation: retry until [holds], or fail with the error that the
    last look gives. *)
Definition retrying (holds : Page → bool) (error : Page → TestError) : Step Page :=
  λ p, match poll br_wait holds br_timeout p with
       | Ok p' => Ok (tt, p')
       | Err p' => Err (error p')
       end.

Definition toHaveURL (url : string) : Step Page :=
  retrying (λ p, bool_decide (br_url p = br_resolve url))
           (λ p, ToHaveURLFailed (br_resolve url) (br_url p)).

Definition toHaveTitle (re : RegExp) : Step Page :=
  retrying (λ p, regexp_test re (br_title p))
           (λ p, ToHaveTitleFailed (br_title p)).

Definition toBeVisible (l : Locator) : Step Page :=
  retrying (λ p, br_visible (selector l) p)
           (λ p, ToBeVisibleFailed (selector l)).

End expect.
End expect.

(** ** The runner *)

Record TestCase (Page : Type) : Type := {
  test_title : string;
  test_body : Step Page;
}.
Global Arguments test_title {Page} _.
Global Arguments test_body {Page} _.

Record Suite (Page : Type) : Type := {
  suite_title : string;
  suite_tests : list (TestCase Page);
}.
Global Arguments suite_title {Page} _.
Global Arguments suite_tests {Page} _.

Inductive Outcome : Type :=
| Passed
| Failed (e : TestError).

#[export] Instance Outcome_eq_dec : EqDecision Outcome.
Proof. solve_decision. Defined.

Section runner.
Context {Page : Type} {BR : Browser Page}.

Definition outcome_of (r : result TestError (unit * Page)) : Outcome :=
  match r with
  | Ok _ => Passed
  | Err e => Failed e
  end.

(** A test runs on a page of its own. *)
Definition run_test (t : TestCase Page) : Outcome :=
  outcome_of (test_body t br_new_page).

(** The report of a suite: for every test, in order, the path of titles
    that names it and its outcome. *)
Definition run_suite (s : Suite Page) : list (list string * Outcome) :=
  map (λ t, ([suite_title s; test_title t], run_test t)) (suite_tests s).

Definition all_passed (rs : list (list string * Outcome)) : bool :=
  forallb (λ r, bool_decide (r.2 = Passed)) rs.

(** The page after [k] intervals. *)
Definition later (k : nat) (p : Page) : Page := Nat.iter k br_wait p.

(** [within P p]: [P] holds of the page at some look before the timeout. *)
Definition within (P : Page → Prop) (p : Page) : Prop :=
  ∃ k, k ≤ br_timeout ∧ P (later k p).

End runner.

(** ** Lemmas on retrying *)

Section poll_lemmas.
Context {Page : Type} (wait : Page → Page) (holds : Page → bool).
Implicit Types (p : Page) (n k : nat).

Lemma poll_holds n p : holds p = true → poll wait holds n p = Ok p.
Proof. intros Hp. destruct n; simpl; by rewrite Hp. Qed.

Lemma poll_step n p :
  holds p = false → poll wait holds (S n) p = poll wait holds n (wait p).
Proof. intros Hp. simpl. by rewrite Hp. Qed.

(** The loop returns the page of the first look at which [holds]
    succeeds. *)
Lemma poll_ok n p p' :
  poll wait holds n p = Ok p' ↔
  ∃ k, k ≤ n ∧ p' = Nat.iter k wait p ∧ holds p' = true ∧
       ∀ j, j < k → holds (Nat.iter j wait p) = false.
Proof.
  revert p. induction n as [|n IH]; intros p; destruct (holds p) eqn:Hp.
  - rewrite poll_holds by done. split.
    + intros [= <-]. exists 0. repeat split; [lia|done|lia].
    + intros (k & Hk & -> & _ & _). by replace k with 0 by lia.
  - simpl. rewrite Hp. split; [done|].
    intros (k & Hk & -> & Hh & _). replace k with 0 in Hh by lia. simpl in Hh.
    congruence.
  - rewrite poll_holds by done. split.
    + intros [= <-]. exists 0. repeat split; [lia|done|lia].
    + intros (k & Hk & -> & _ & Hfirst). destruct k as [|k]; [done|].
      specialize (Hfirst 0 ltac:(lia)). simpl in Hfirst. congruence.
  - rewrite poll_step, IH by done. split.
    + intros (k & Hk & -> & Hh & Hfirst). exists (S k).
      rewrite Nat.iter_succ_r. repeat split; [lia|done|].
      intros [|j] Hj; [done|]. rewrite Nat.iter_succ_r. apply Hfirst. lia.
    + intros (k & Hk & -> & Hh & Hfirst). destruct k as [|k].
      { simpl in Hh. congruence. }
      exists k. repeat split; [lia|by rewrite Nat.iter_succ_r|done|].
      intros j Hj. rewrite <- Nat.iter_succ_r. apply Hfirst. lia.
Qed.

(** The loop gives up on the page of its last look, when [holds] failed at
    every look. *)
Lemma poll_err n p p' :
  poll wait holds n p = Err p' ↔
  p' = Nat.iter n wait p ∧ ∀ j, j ≤ n → holds (Nat.iter j wait p) = false.
Proof.
  revert p. induction n as [|n IH]; intros p; destruct (holds p) eqn:Hp.
  - rewrite poll_holds by done. split; [done|].
    intros [_ Hall]. specialize (Hall 0 ltac:(lia)). simpl in Hall. congruence.
  - simpl. rewrite Hp. split.
    + intros [= <-]. split; [done|]. intros j Hj. by replace j with 0 by lia.
    + by intros [-> _].
  - rewrite poll_holds by done. split; [done|].
    intros [_ Hall]. specialize (Hall 0 ltac:(lia)). simpl in Hall. congruence.
  - rewrite poll_step, IH by done. rewrite Nat.iter_succ_r. split.
    + intros [-> Hall]. split; [done|]. intros [|j] Hj; [done|].
      rewrite Nat.iter_succ_r. apply Hall. lia.
    + intros [-> Hall]. split; [done|]. intros j Hj.
      rewrite <- Nat.iter_succ_r. apply Hall. lia.
Qed.

(** The loop succeeds exactly when [holds] succeeds at some look before the
    timeout. *)
Lemma poll_succeeds n p :
  (∃ p', poll wait holds n p = Ok p') ↔
  ∃ k, k ≤ n ∧ holds (Nat.iter k wait p) = true.
Proof.
  split.
  - intros (p' & (k & Hk & -> & Hh & _)%poll_ok). eauto.
  - intros (k & Hk & Hh). destruct (poll wait holds n p) as [p'|p'] eqn:Hpoll.
    + eauto.
    + apply poll_err in Hpoll as [_ Hall]. rewrite Hall in Hh by done. done.
Qed.

(** More patience does not change a success. *)
Lemma poll_mono n m p p' :
  n ≤ m → poll wait holds n p = Ok p' → poll wait holds m p = Ok p'.
Proof.
  intros Hnm (k & Hk & -> & Hh & Hfirst)%poll_ok. apply poll_ok.
  exists k. repeat split; [lia|done|done].
Qed.

(** On a page that does not change, the loop decides at its first look. *)
Lemma poll_fixed n p :
  wait p = p → poll wait holds n p = if holds p then Ok p else Err p.
Proof.
  intros Hfix. induction n as [|n IH]; [done|].
  simpl. destruct (holds p); [done|]. by rewrite Hfix.
Qed.

End poll_lemmas.

(** ** Lemmas on steps *)

Section step_lemmas.
Context {Page : Type} {BR : Browser Page}.

Lemma outcome_of_passed (r : result TestError (unit * Page)) :
  outcome_of r = Passed ↔ ∃ p, r = Ok (tt, p).
Proof.
  destruct r as [[[] p]|e]; simpl; split; try done; eauto.
  by intros [? ?].
Qed.

Lemma outcome_of_failed (r : result TestError (unit * Page)) e :
  outcome_of r = Failed e ↔ r = Err e.
Proof. destruct r as [[[] p]|e']; simpl; split; congruence. Qed.

Lemma goto_ok url p p' :
  page.goto url p = Ok (tt, p') ↔ br_goto url p = Some p'.
Proof. unfold page.goto. destruct (br_goto url p); split; congruence. Qed.

Lemma goto_err url p e :
  page.goto url p = Err e ↔ br_goto url p = None ∧ e = GotoFailed url.
Proof.
  unfold page.goto. destruct (br_goto url p); split; try done.
  - by intros [? ?].
  - by intros [= <-].
  - by intros [_ ->].
Qed.

(** An expectation succeeds, on the page of its first successful look,
    exactly when what it expects holds at some look before the timeout. *)
Lemma retrying_ok holds error p :
  (∃ p', expect.retrying holds error p = Ok (tt, p')) ↔
  within (λ q, holds q = true) p.
Proof.
  unfold expect.retrying, within, later. rewrite <- poll_succeeds. split.
  - intros [p' Hp']. destruct (poll _ _ _ _) as [q|q]; [eauto|done].
  - intros [p' ->]. eauto.
Qed.

(** An expectation fails, with the error of its last look, exactly when
    what it expects holds at no look before the timeout. *)
Lemma retrying_err holds error p e :
  expect.retrying holds error p = Err e ↔
  ¬ within (λ q, holds q = true) p ∧ e = error (later br_timeout p).
Proof.
  unfold expect.retrying, within, later.
  destruct (poll _ _ _ _) as [q|q] eqn:Hpoll.
  - split; [done|]. intros [Hnot _]. destruct Hnot.
    apply poll_succeeds. eauto.
  - apply poll_err in Hpoll as [-> Hall]. split.
    + intros [= <-]. split; [|done]. intros (k & Hk & Hh).
      rewrite Hall in Hh by done. done.
    + by intros [_ ->].
Qed.

(** On a page that does not change, an expectation is decided by the page
    as it is. *)
Lemma retrying_settled holds error p :
  br_wait p = p →
  expect.retrying holds error p
  = if holds p then Ok (tt, p) else Err (error p).
Proof.
  intros Hfix. unfold expect.retrying. rewrite poll_fixed by done.
  by destruct (holds p).
Qed.

Lemma within_iff (P Q : Page → Prop) p :
  (∀ q, P q ↔ Q q) → within P p ↔ within Q p.
Proof. intros HPQ. unfold within. by setoid_rewrite HPQ. Qed.

Lemma within_now (P : Page → Prop) p : P p → within P p.
Proof. intros HP. exists 0. split; [lia|done]. Qed.

Lemma step_returns_unit (c : Step Page) p :
  (∃ r, c p = Ok r) ↔ ∃ p', c p = Ok (tt, p').
Proof.
  split.
  - intros [[[] p'] Hr]. eauto.
  - intros [p' Hp']. eauto.
Qed.

Lemma toHaveURL_ok url p :
  (∃ p', expect.toHaveURL url p = Ok (tt, p')) ↔
  within (λ q, br_url q = br_resolve url) p.
Proof.
  unfold expect.toHaveURL. rewrite retrying_ok. apply within_iff. intros q.
  apply bool_decide_eq_true.
Qed.

Lemma toHaveURL_err url p e :
  expect.toHaveURL url p = Err e ↔
  ¬ within (λ q, br_url q = br_resolve url) p ∧
  e = ToHaveURLFailed (br_resolve url) (br_url (later br_timeout p)).
Proof.
  unfold expect.toHaveURL. rewrite retrying_err. apply and_iff_compat_r.
  apply not_iff_compat, within_iff. intros q. apply bool_decide_eq_true.
Qed.

Lemma toHaveTitle_ok re p :
  (∃ p', expect.toHaveTitle re p = Ok (tt, p')) ↔
  within (λ q, regexp_test re (br_title q) = true) p.
Proof. unfold expect.toHaveTitle. by rewrite retrying_ok. Qed.

Lemma toHaveTitle_err re p e :
  expect.toHaveTitle re p = Err e ↔
  ¬ within (λ q, regexp_test re (br_title q) = true) p ∧
  e = ToHaveTitleFailed (br_title (later br_timeout p)).
Proof. unfold expect.toHaveTitle. by rewrite retrying_err. Qed.

Lemma toBeVisible_ok l p :
  (∃ p', expect.toBeVisible l p = Ok (tt, p')) ↔
  within (λ q, br_visible (selector l) q = true) p.
Proof. unfold expect.toBeVisible. by rewrite retrying_ok. Qed.

Lemma toBeVisible_err l p e :
  expect.toBeVisible l p = Err e ↔
  ¬ within (λ q, br_visible (selector l) q = true) p ∧
  e = ToBeVisibleFailed (selector l).
Proof. unfold expect.toBeVisible. by rewrite retrying_err. Qed.

Lemma later_settled k p : br_wait p = p → later k p = p.
Proof.
  intros Hfix. unfold later. induction k as [|k IH]; [done|].
  by rewrite Nat.iter_succ_r, Hfix.
Qed.

Lemma within_settled (P : Page → Prop) p : br_wait p = p → within P p ↔ P p.
Proof.
  intros Hfix. unfold within. split.
  - intros (k & _ & HP). by rewrite later_settled in HP.
  - intros HP. exists 0. split; [lia|done].
Qed.

(** ** Lemmas on the runner *)

Lemma run_test_passed t :
  run_test t = Passed ↔ ∃ p, test_body t br_new_page = Ok (tt, p).
Proof. apply outcome_of_passed. Qed.

Lemma run_test_failed t e :
  run_test t = Failed e ↔ test_body t br_new_page = Err e.
Proof. apply outcome_of_failed. Qed.

(** The outcome of a test does not depend on the tests that run before it or
    after it. *)
Lemma run_suite_lookup s i t :
  suite_tests s !! i = Some t →
  run_suite s !! i = Some ([suite_title s; test_title t], run_test t).
Proof. intros Ht. unfold run_suite. by rewrite list_lookup_fmap, Ht. Qed.

Lemma all_passed_spec (rs : list (list string * Outcome)) :
  all_passed rs = true ↔ Forall (λ r, r.2 = Passed) rs.
Proof.
  unfold all_passed. rewrite forallb_forall, Forall_forall.
  setoid_rewrite <- list_elem_of_In.
  by setoid_rewrite bool_decide_eq_true.
Qed.

End step_lemmas.
