(* ===== verification/Steps.v ===== *)
(** The pages that a browser can reach, and steps that do nothing.

    This file has what the theorems on tests and on the host share:
    predicates that every action of a browser keeps ([stable]), the pages
    that a browser can reach from a new page by its actions ([br_step],
    [reachable]), with the induction that lifts a stable predicate to every
    reachable page, and the equivalence of an expectation that always holds
    with the step that does nothing. *)

From stdpp Require Import relations.
From S2P Require Import Prelude.
From S2P Require Import RegExp.
From S2P Require Import Playwright.

Local Open Scope se_scope.

Section steps.
Context {Page : Type} {BR : Browser Page}.

(** A predicate is stable when a navigation, a change of the viewport and
    the passing of time keep it. *)
Record stable (I : Page → Prop) : Prop := {
  stable_goto u p p' : I p → br_goto u p = Some p' → I p';
  stable_set_viewport v p : I p → I (br_set_viewport v p);
  stable_wait p : I p → I (br_wait p);
}.

(** What a browser does in one action: a navigation that is accepted, a
    change of the viewport, or the passing of one interval. *)
Inductive br_step : Page → Page → Prop :=
| step_goto u p p' : br_goto u p = Some p' → br_step p p'
| step_set_viewport v p : br_step p (br_set_viewport v p)
| step_wait p : br_step p (br_wait p).

(** The pages that some sequence of actions reaches from a new page. *)
Definition reachable (p : Page) : Prop := rtc br_step br_new_page p.

End steps.

(** ** Reachable pages *)

Section reachable_lemmas.
Context {Page : Type} {BR : Browser Page}.
Implicit Types (I : Page → Prop).

Lemma stable_step I p p' : stable I → br_step p p' → I p → I p'.
Proof.
  intros HI Hstep Hp. destruct Hstep.
  - by eapply stable_goto.
  - by apply stable_set_viewport.
  - by apply stable_wait.
Qed.

(** A stable predicate that holds of a new page holds of every reachable
    page. *)
Lemma reachable_ind_stable I p : stable I → I br_new_page → reachable p → I p.
Proof.
  intros HI Hnew Hp. eapply (rtc_ind_r I); [exact Hnew| |exact Hp].
  intros q q' _ Hstep Hq. by eapply stable_step.
Qed.

Lemma reachable_stable : stable reachable.
Proof.
  split; unfold reachable.
  - intros u p p' Hp Hg. eapply rtc_r; [done|]. by eapply step_goto.
  - intros v p Hp. eapply rtc_r; [done|]. apply step_set_viewport.
  - intros p Hp. eapply rtc_r; [done|]. apply step_wait.
Qed.

Lemma reachable_new_page : reachable br_new_page.
Proof. apply rtc_refl. Qed.

End reachable_lemmas.

(** ** Equivalences *)

Section equivalences.
Context {Page : Type} {BR : Browser Page}.

(** An expectation of what always holds does nothing. *)
Lemma retrying_always holds error :
  (∀ p, holds p = true) → expect.retrying holds error ≡ se_ret tt.
Proof. intros Hh p. unfold expect.retrying. by rewrite poll_holds. Qed.

(** A pattern that matches the empty string is found in every title. *)
Lemma toHaveTitle_nullable re :
  nullable re = true → expect.toHaveTitle re ≡ se_ret tt.
Proof. intros Hre. apply retrying_always. intros p. by apply regexp_test_nullable. Qed.

End equivalences.
