(* ===== verification/HomeSpec.v ===== *)
(** The smoke suite, [tests/e2e/home.spec.ts]: the suite [Homepage] and its
    three tests, written against the interface of [Playwright].

    The theorems say, for every browser, exactly when each test passes and
    what it fails with otherwise.  They hold for every browser because the
    tests are the only code here: what the browser shows is a matter of the
    application and of the environment. *)

From S2P Require Import Prelude.
From S2P Require Import RegExp.
From S2P Require Import Playwright.
From S2P Require Import Steps.

Local Open Scope se_scope.

Section Homepage.
Context {Page : Type} {BR : Browser Page}.

Definition should_load_the_homepage : TestCase Page := {|
  test_title := "should load the homepage";
  test_body :=
    page.goto "/" ;;
    expect.toHaveURL "/";
|}.

Definition should_have_correct_title : TestCase Page := {|
  test_title := "should have correct title";
  test_body :=
    page.goto "/" ;;
    expect.toHaveTitle (ReStar ReDot);
|}.

Definition should_be_responsive_on_mobile : TestCase Page := {|
  test_title := "should be responsive on mobile";
  test_body :=
    page.setViewportSize {| width := 375; height := 667 |} ;;
    page.goto "/" ;;
    expect.toBeVisible (page.locator "body");
|}.

Definition Homepage : Suite Page := {|
  suite_title := "Homepage";
  suite_tests :=
    [should_load_the_homepage; should_have_correct_title;
     should_be_responsive_on_mobile];
|}.

End Homepage.

Section Homepage_theorems.
Context {Page : Type} {BR : Browser Page}.

(** ** The bodies, from any page

    What a body returns when it starts on a page [p0].  The runner starts a
    body on a new page; the theorems on the tests below are these lemmas at
    that page. *)

(** The pattern [.*] is found in every title. *)
Lemma title_pattern_any (s : string) : regexp_test (ReStar ReDot) s = true.
Proof. by apply regexp_test_nullable. Qed.

Lemma load_body_ok p0 :
  (∃ p, test_body should_load_the_homepage p0 = Ok (tt, p)) ↔
  ∃ p1, br_goto "/" p0 = Some p1 ∧ within (λ q, br_url q = br_resolve "/") p1.
Proof.
  rewrite <- step_returns_unit. simpl. rewrite se_bind_returns.
  setoid_rewrite step_returns_unit. setoid_rewrite toHaveURL_ok. split.
  - intros ([] & p1 & Hg%goto_ok & Hw). eauto.
  - intros (p1 & Hg%goto_ok & Hw). eauto.
Qed.

Lemma load_body_err p0 e :
  test_body should_load_the_homepage p0 = Err e ↔
  (br_goto "/" p0 = None ∧ e = GotoFailed "/") ∨
  (∃ p1, br_goto "/" p0 = Some p1 ∧
         ¬ within (λ q, br_url q = br_resolve "/") p1 ∧
         e = ToHaveURLFailed (br_resolve "/") (br_url (later br_timeout p1))).
Proof.
  simpl. rewrite se_bind_err_inv, goto_err. apply or_iff_compat_l.
  setoid_rewrite toHaveURL_err. split.
  - intros ([] & p1 & Hg%goto_ok & Hw). eauto.
  - intros (p1 & Hg%goto_ok & Hw). eauto.
Qed.

Lemma title_body_ok p0 :
  (∃ p, test_body should_have_correct_title p0 = Ok (tt, p)) ↔
  is_Some (br_goto "/" p0).
Proof.
  rewrite <- step_returns_unit. simpl. rewrite se_bind_returns.
  setoid_rewrite step_returns_unit. setoid_rewrite toHaveTitle_ok. split.
  - intros ([] & p1 & Hg%goto_ok & _). eauto.
  - intros [p1 Hg%goto_ok]. exists tt, p1. split; [done|].
    apply within_now, title_pattern_any.
Qed.

Lemma title_body_err p0 e :
  test_body should_have_correct_title p0 = Err e ↔
  br_goto "/" p0 = None ∧ e = GotoFailed "/".
Proof.
  simpl. rewrite se_bind_err_inv, goto_err. split; [|by left].
  intros [?|([] & p1 & _ & [Hw _]%toHaveTitle_err)]; [done|].
  destruct Hw. apply within_now, title_pattern_any.
Qed.

Lemma mobile_body_ok p0 :
  (∃ p, test_body should_be_responsive_on_mobile p0 = Ok (tt, p)) ↔
  ∃ p1, br_goto "/" (br_set_viewport {| width := 375; height := 667 |} p0)
        = Some p1 ∧
        within (λ q, br_visible "body" q = true) p1.
Proof.
  rewrite <- step_returns_unit. simpl. rewrite !se_bind_returns.
  setoid_rewrite se_bind_returns. setoid_rewrite step_returns_unit.
  setoid_rewrite toBeVisible_ok. split.
  - intros ([] & p' & [= <-] & [] & p1 & Hg%goto_ok & Hw). eauto.
  - intros (p1 & Hg%goto_ok & Hw). eexists tt, _. split; [done|]. eauto.
Qed.

Lemma mobile_body_err p0 e :
  test_body should_be_responsive_on_mobile p0 = Err e ↔
  (br_goto "/" (br_set_viewport {| width := 375; height := 667 |} p0) = None ∧
   e = GotoFailed "/") ∨
  (∃ p1, br_goto "/" (br_set_viewport {| width := 375; height := 667 |} p0)
         = Some p1 ∧
         ¬ within (λ q, br_visible "body" q = true) p1 ∧
         e = ToBeVisibleFailed "body").
Proof.
  simpl. rewrite se_bind_err_inv. split.
  - intros [[=]|([] & p' & [= <-] & He)]. revert He.
    rewrite se_bind_err_inv, goto_err.
    intros [?|([] & p1 & Hg%goto_ok & He%toBeVisible_err)]; [by left|right].
    eauto.
  - intros Hcases. right. eexists tt, _. split; [done|].
    rewrite se_bind_err_inv, goto_err.
    destruct Hcases as [?|(p1 & Hg%goto_ok & Hw)]; [by left|right].
    exists tt, p1. by rewrite toBeVisible_err.
Qed.

(** The report of the suite: the three tests in the order of the source,
    each under the title of the suite. *)
Lemma Homepage_report :
  run_suite Homepage
  = [(["Homepage"; "should load the homepage"], run_test should_load_the_homepage);
     (["Homepage"; "should have correct title"], run_test should_have_correct_title);
     (["Homepage"; "should be responsive on mobile"],
      run_test should_be_responsive_on_mobile)].
Proof. reflexivity. Qed.

(** The suite passes when the three bodies return from a new page. *)
Lemma Homepage_all_passed_bodies :
  all_passed (run_suite Homepage) = true ↔
  (∃ p, br_goto "/" br_new_page = Some p ∧
        within (λ q, br_url q = br_resolve "/") p) ∧
  is_Some (br_goto "/" br_new_page) ∧
  (∃ p, br_goto "/" (br_set_viewport {| width := 375; height := 667 |} br_new_page)
        = Some p ∧ within (λ q, br_visible "body" q = true) p).
Proof.
  rewrite all_passed_spec, Homepage_report, !Forall_cons, Forall_nil. simpl.
  rewrite !run_test_passed, load_body_ok, title_body_ok, mobile_body_ok. tauto.
Qed.

(** ** When the tests pass *)

(** C4. [should load the homepage] passes exactly when the navigation to [/] is
    accepted and, before the timeout, the page is at the URL that [/]
    resolves to. *)
Theorem should_load_the_homepage_passes :
  run_test should_load_the_homepage = Passed ↔
  ∃ p, br_goto "/" br_new_page = Some p ∧
       within (λ q, br_url q = br_resolve "/") p.
Proof. rewrite run_test_passed. apply load_body_ok. Qed.

(** C3. [should have correct title] passes exactly when the navigation to [/] is
    accepted: the expectation on the title holds of every title, at the first
    look. *)
Theorem should_have_correct_title_passes :
  run_test should_have_correct_title = Passed ↔
  is_Some (br_goto "/" br_new_page).
Proof. rewrite run_test_passed. apply title_body_ok. Qed.

(** C5. [should be responsive on mobile] passes exactly when, on a page whose
    viewport is 375 by 667, the navigation to [/] is accepted and, before the
    timeout, the selector [body] resolves to a visible element. *)
Theorem should_be_responsive_on_mobile_passes :
  run_test should_be_responsive_on_mobile = Passed ↔
  ∃ p, br_goto "/" (br_set_viewport {| width := 375; height := 667 |} br_new_page)
       = Some p ∧
       within (λ q, br_visible "body" q = true) p.
Proof. rewrite run_test_passed. apply mobile_body_ok. Qed.

(** ** What the tests fail with *)

(** C18. [should load the homepage] fails either at the navigation, or at the
    expectation, when the page is at the expected URL at no look before the
    timeout; the error carries the URL expected and the URL of the last
    look. *)
Theorem should_load_the_homepage_fails e :
  run_test should_load_the_homepage = Failed e ↔
  (br_goto "/" br_new_page = None ∧ e = GotoFailed "/") ∨
  (∃ p, br_goto "/" br_new_page = Some p ∧
        ¬ within (λ q, br_url q = br_resolve "/") p ∧
        e = ToHaveURLFailed (br_resolve "/") (br_url (later br_timeout p))).
Proof. rewrite run_test_failed. apply load_body_err. Qed.

(** C17. [should have correct title] fails at the navigation and nowhere else:
    no title makes it fail. *)
Theorem should_have_correct_title_fails e :
  run_test should_have_correct_title = Failed e ↔
  br_goto "/" br_new_page = None ∧ e = GotoFailed "/".
Proof. rewrite run_test_failed. apply title_body_err. Qed.

(** C19. [should be responsive on mobile] fails either at the navigation, or at
    the expectation when [body] is visible at no look before the timeout. *)
Theorem should_be_responsive_on_mobile_fails e :
  run_test should_be_responsive_on_mobile = Failed e ↔
  (br_goto "/" (br_set_viewport {| width := 375; height := 667 |} br_new_page)
   = None ∧ e = GotoFailed "/") ∨
  (∃ p, br_goto "/" (br_set_viewport {| width := 375; height := 667 |} br_new_page)
        = Some p ∧
        ¬ within (λ q, br_visible "body" q = true) p ∧
        e = ToBeVisibleFailed "body").
Proof. rewrite run_test_failed. apply mobile_body_err. Qed.

(** ** How the tests relate *)

(** A browser on which [should load the homepage] passes lets
    [should have correct title] pass as well: the second test observes
    nothing that the first one does not. *)
Theorem load_passes_title_passes :
  run_test should_load_the_homepage = Passed →
  run_test should_have_correct_title = Passed.
Proof.
  rewrite !run_test_passed, load_body_ok, title_body_ok.
  intros (p & Hg & _). eauto.
Qed.

(** C9. [should have correct title] does what the navigation alone does, from
    every page and on every browser: the expectation on the title never
    waits, never fails and changes nothing. *)
Theorem should_have_correct_title_navigates :
  test_body should_have_correct_title ≡ page.goto "/".
Proof.
  simpl. setoid_rewrite toHaveTitle_nullable; [|done].
  apply se_equiv_seq_ret_r.
Qed.

Section laws.
Context {BL : BrowserLaws Page}.

(** C15. On a browser that keeps to [BrowserLaws], the whole suite passes exactly
    when the navigation to [/] from a new page is accepted and, before the
    timeout of each expectation, the page is at the URL that [/] resolves to
    and, with the viewport at 375 by 667, shows a visible [body]. *)
Theorem Homepage_all_passed :
  all_passed (run_suite Homepage) = true ↔
  ∃ p, br_goto "/" br_new_page = Some p ∧
       within (λ q, br_url q = br_resolve "/") p ∧
       within (λ q, br_visible "body" q = true)
         (br_set_viewport {| width := 375; height := 667 |} p).
Proof.
  rewrite Homepage_all_passed_bodies. setoid_rewrite br_goto_set_viewport. split.
  - intros ((p & Hg & Hu) & _ & (p' & Hg' & Hv)). exists p.
    rewrite Hg in Hg'. injection Hg' as <-. done.
  - intros (p & Hg & Hu & Hv). rewrite Hg. simpl. eauto 10.
Qed.

End laws.

Section settled.
Context {BL : BrowserLaws Page} {ST : Settles Page}.

(** C16. On a browser that keeps to [BrowserLaws] and settles, waiting changes
    nothing, and the suite is decided by the page that the navigation
    returns: it passes exactly when the navigation to [/] is accepted, ends
    at the URL that [/] resolves to, and shows a visible [body] at 375 by
    667. *)
Theorem Homepage_all_passed_settled :
  all_passed (run_suite Homepage) = true ↔
  ∃ p, br_goto "/" br_new_page = Some p ∧
       br_url p = br_resolve "/" ∧
       br_visible "body" (br_set_viewport {| width := 375; height := 667 |} p) = true.
Proof.
  rewrite Homepage_all_passed_bodies. setoid_rewrite br_goto_set_viewport. split.
  - intros ((p & Hg & Hu) & _ & (p' & Hg' & Hv)). exists p.
    rewrite Hg in Hg'. injection Hg' as <-.
    rewrite within_settled in Hu by (by eapply br_goto_settled).
    rewrite within_settled in Hv; [done|].
    eapply (br_goto_settled "/"). by rewrite br_goto_set_viewport, Hg.
  - intros (p & Hg & Hu & Hv). rewrite Hg. simpl.
    repeat split; eauto using within_now.
Qed.

End settled.

End Homepage_theorems.
