(* ===== verification/Host.v ===== *)
(** A reference host: the simplest server and browser that implement the
    interface of [Playwright] for this application.

    The host is a model of the environment, not of code of the repository.
    It stands for Next.js serving the application and for the browser that
    loads it.  What the sources do not fix is a parameter of the host
    ([HostConfig]): the base URL and the timeout of the test configuration,
    the content of the home page and of the not-found page, the status with
    which the server answers the home page, the layout
    engine with the style sheet, which gives every element its box and says
    what is hidden, and the URLs that the build gives to the style sheets.
    An element is visible, as Playwright defines it, when it has a box that
    is not empty and is not hidden ([is_visible]).  What the sources do fix
    is used as it is: every page is [RootLayout] around its content, and the
    head of the document is built from [metadata] and links the style sheet
    that the layout imports.

    A locator of the host is strict, as the locators of Playwright are: it
    resolves when its selector matches one element of the document
    ([resolve_strict] in [Query]), and an expectation on a locator that does
    not resolve fails.  The host does not tell that failure from the failure
    of the expectation itself.

    The document of a page is the tree that the server rendered, with the
    head; the host does not write it as markup and read it back, as a
    browser does.  [with_extensions] is what extensions of the browser do
    to the document before React hydrates it.

    The host discharges [BrowserLaws] and [Settles], so that the theorems of
    [HomeSpec] that assume them apply to it.  Its pages keep an invariant
    ([host_page_ok]) under every action, and the documents that it serves
    hydrate against the root layout without a mismatch, extensions or
    not. *)

From S2P Require Import Prelude.
From S2P Require Import Jsx.
From S2P Require Import Nesting.
From S2P Require Import Dom.
From S2P Require Import Query.
From S2P Require Import Hydration.
From S2P Require Import Layout.
From S2P Require Import RegExp.
From S2P Require Import Playwright.
From S2P Require Import Steps.

(** The size of the box of an element, as [boundingBox] reports it. *)
Record Box : Type := {
  box_width : Z;
  box_height : Z;
}.

Record HostConfig : Type := {
  (** the base URL of the test configuration, without a final slash *)
  origin : string;
  (** the content of the route [/] *)
  home_page : ReactNode;
  (** the HTTP status with which the server answers the route [/] *)
  home_status : nat;
  (** the content served for every other path *)
  not_found_page : ReactNode;
  (** the layout engine under the style sheet: the box of an element of a
      document at a viewport size, none when the element is not rendered *)
  bounding_box : ViewportSize → list DomNode → DomNode → option Box;
  (** whether the style sheet hides an element (visibility: hidden) *)
  visibility_hidden : list DomNode → DomNode → bool;
  (** the timeout of an expectation, in polling intervals *)
  expect_timeout : nat;
  (** the URL that the build gives to a module that the layout imports *)
  asset_url : string → string;
}.

Record HostPage : Type := {
  location : string;
  document : list DomNode;
  viewport : ViewportSize;
  (** the HTTP status of the response to the last navigation *)
  status : option nat;
}.

(** The link to a style sheet. *)
Definition stylesheet_link (href : string) : DomNode :=
  DElement "link" [("rel", "stylesheet"); ("href", href)] [].

(** The elements of the head: those that the metadata contributes, and a
    link for every style sheet. *)
Definition head_elements (m : Metadata) (stylesheets : list string) : list DomNode :=
  match title m with
  | Some t => [DElement "title" [] [DText t]]
  | None => []
  end ++
  match description m with
  | Some d => [DElement "meta" [("name", "description"); ("content", d)] []]
  | None => []
  end ++
  (stylesheet_link <$> stylesheets).

(** The head, placed first under the root element. *)
Definition with_head (hs : list DomNode) (d : DomNode) : DomNode :=
  match d with
  | DElement t attrs ds =>
      if decide (t = "html") then DElement t attrs (DElement "head" [] hs :: ds)
      else d
  | DText _ => d
  end.

(** The head of every page: the metadata of the layout, and the style
    sheets that the layout imports, at the URLs of the build. *)
Definition page_head (cfg : HostConfig) : list DomNode :=
  head_elements metadata (asset_url cfg <$> side_effect_imports).

(** The document of a page: the root layout around the content, with the
    head of the page. *)
Definition serve (cfg : HostConfig) (content : ReactNode) : list DomNode :=
  with_head (page_head cfg) <$> render (RootLayout {| children := content |}).

(** The title of a document: the text of its first [title] element. *)
Definition document_title (doc : list DomNode) : string :=
  match doc with
  | d :: _ =>
      match querySelector "title" d with
      | Some t => textContent t
      | None => ""
      end
  | [] => ""
  end.

Definition is_path (u : string) : bool :=
  match u with
  | String c _ => bool_decide (c = "/"%char)
  | "" => false
  end.

Definition default_viewport : ViewportSize := {| width := 1280; height := 720 |}.

(** An element is visible when it has a box that is not empty and is not
    hidden. *)
Definition is_visible (cfg : HostConfig) (v : ViewportSize) (doc : list DomNode)
    (d : DomNode) : bool :=
  match bounding_box cfg v doc d with
  | Some box =>
      bool_decide (0 < box_width box)%Z && bool_decide (0 < box_height box)%Z
      && negb (visibility_hidden cfg doc d)
  | None => false
  end.

(** What extensions of the browser do to a document before React
    hydrates it: they set attributes of their own on [html] and on [body],
    and append nodes to [body]. *)
Definition extend_body (body_attrs : Attrs) (appended : list DomNode) (d : DomNode)
    : DomNode :=
  match d with
  | DElement t attrs ds =>
      if decide (t = "body") then DElement t (attrs ++ body_attrs) (ds ++ appended)
      else d
  | DText _ => d
  end.

Definition with_extensions (html_attrs body_attrs : Attrs) (appended : list DomNode)
    (d : DomNode) : DomNode :=
  match d with
  | DElement t attrs ds =>
      if decide (t = "html")
      then DElement t (attrs ++ html_attrs) (extend_body body_attrs appended <$> ds)
      else d
  | DText _ => d
  end.

Section host.
Variable cfg : HostConfig.

Definition host_resolve (u : string) : string :=
  if is_path u then origin cfg +:+ u else u.

Definition host_new_page : HostPage := {|
  location := "about:blank";
  document := [];
  viewport := default_viewport;
  status := None;
|}.

(** A navigation inside the origin is answered with the home page or with
    the not-found page; a navigation elsewhere is rejected.  A navigation
    that is answered succeeds whatever the status of the answer:
    [page.goto] rejects when no response arrives, not on a response with an
    error status. *)
Definition host_goto (u : string) (p : HostPage) : option HostPage :=
  if decide (host_resolve u = origin cfg +:+ "/") then
    Some {| location := host_resolve u;
            document := serve cfg (home_page cfg);
            viewport := viewport p;
            status := Some (home_status cfg) |}
  else if String.prefix (origin cfg +:+ "/") (host_resolve u) then
    Some {| location := host_resolve u;
            document := serve cfg (not_found_page cfg);
            viewport := viewport p;
            status := Some 404 |}
  else None.

Definition host_set_viewport (v : ViewportSize) (p : HostPage) : HostPage :=
  {| location := location p; document := document p; viewport := v;
     status := status p |}.

(** Whether a locator resolves to a visible element: its selector matches
    one element of the document, and the layout engine shows it. *)
Definition host_visible (sel : string) (p : HostPage) : bool :=
  match resolve_strict sel (document p) with
  | Some d => is_visible cfg (viewport p) (document p) d
  | None => false
  end.

#[export] Instance host_browser : Browser HostPage := {|
  br_new_page := host_new_page;
  br_goto := host_goto;
  br_url := location;
  br_title p := document_title (document p);
  br_set_viewport := host_set_viewport;
  br_visible := host_visible;
  br_resolve := host_resolve;
  br_wait p := p;
  br_timeout := expect_timeout cfg;
|}.

End host.

(** A layout engine that gives every element the box of the viewport, and
    a style sheet that hides nothing. *)
Definition viewport_box (v : ViewportSize) (doc : list DomNode) (d : DomNode)
    : option Box :=
  Some {| box_width := width v; box_height := height v |}.

Definition nothing_hidden (doc : list DomNode) (d : DomNode) : bool := false.

(** A host shows all when every element is visible in every viewport that
    is not empty. *)
Definition shows_all (cfg : HostConfig) : Prop :=
  ∀ v doc d, (0 < width v)%Z → (0 < height v)%Z → is_visible cfg v doc d = true.

(** What every page of the host looks like: blank, as a new page is, or a
    page of the application at a URL of the origin, whose document is the
    root layout around the content of the home page or of the not-found
    page, under the head of the metadata. *)
Definition host_page_ok (cfg : HostConfig) (p : HostPage) : Prop :=
  (location p = "about:blank" ∧ document p = []) ∨
  (String.prefix (origin cfg +:+ "/") (location p) = true ∧
   ∃ content, content ∈ [home_page cfg; not_found_page cfg] ∧
              document p = serve cfg content).

(** ** The host keeps the laws of the interface *)

Section host_lemmas.
Variable cfg : HostConfig.

#[export] Instance host_laws : BrowserLaws HostPage (BR := host_browser cfg).
Proof.
  split.
  - intros v u p. simpl. unfold host_goto. simpl.
    by repeat case_match.
  - done.
  - done.
Qed.

(** A page of the host is complete when the navigation returns, and does
    not change after. *)
#[export] Instance host_settles : Settles HostPage (BR := host_browser cfg).
Proof. by split. Qed.

(** ** The documents of the host *)

Lemma serve_document content :
  serve cfg content
  = [DElement "html" [("lang", "en")]
       [DElement "head" [] (page_head cfg);
        DElement "body" [] (render content)]].
Proof.
  unfold serve, RootLayout.
  by rewrite render_element, render_all_cons, render_element_one.
Qed.

(** The document of a page after the extensions of the browser. *)
Lemma with_extensions_serve html_attrs body_attrs appended content :
  with_extensions html_attrs body_attrs appended <$> serve cfg content
  = [DElement "html" ([("lang", "en")] ++ html_attrs)
       [DElement "head" [] (page_head cfg);
        DElement "body" body_attrs (render content ++ appended)]].
Proof. by rewrite serve_document. Qed.

Lemma host_goto_home p :
  host_goto cfg "/" p
  = Some {| location := origin cfg +:+ "/";
            document := serve cfg (home_page cfg);
            viewport := viewport p;
            status := Some (home_status cfg) |}.
Proof. unfold host_goto, host_resolve. simpl. by rewrite decide_True. Qed.

Lemma string_prefix_refl (s : string) : String.prefix s s = true.
Proof.
  induction s as [|c s IH]; [done|]. simpl. by destruct (ascii_dec c c).
Qed.

Lemma host_goto_ok u p p' : host_goto cfg u p = Some p' → host_page_ok cfg p'.
Proof.
  unfold host_goto. case_decide as Hhome; [|case_match eqn:Hpre];
    intros [= <-]; right; simpl.
  - rewrite Hhome. split; [apply string_prefix_refl|].
    exists (home_page cfg). split; [|done]. rewrite !elem_of_cons. tauto.
  - split; [done|]. exists (not_found_page cfg). split; [|done].
    rewrite !elem_of_cons. tauto.
Qed.

(** Every action of the host keeps [host_page_ok]. *)
Lemma host_page_ok_stable : stable (BR := host_browser cfg) (host_page_ok cfg).
Proof.
  split.
  - intros u p p' _ Hg. exact (host_goto_ok u p p' Hg).
  - by intros v p Hp.
  - by intros p Hp.
Qed.

End host_lemmas.

(** ** The document that the host serves *)

(** C24. The head of every page of the host comes from the layout: the title of
    the document is the title of [metadata], the content of the [meta]
    element is its description, neither is empty, and the style sheet that
    the layout imports is linked, at the URL that the build gives it. *)
Theorem served_head cfg content :
  Some (document_title (serve cfg content)) = title metadata ∧
  (λ d, querySelector "meta" d ≫= getAttribute "content") <$> serve cfg content
  = [description metadata] ∧
  document_title (serve cfg content) ≠ "" ∧ description metadata ≠ Some "" ∧
  (λ d, querySelector "link" d ≫= getAttribute "href") <$> serve cfg content
  = Some ∘ asset_url cfg <$> side_effect_imports.
Proof. by rewrite serve_document. Qed.

(** C25. The document that the host serves for a page hydrates against the
    root layout around the page without a mismatch, whatever attributes the
    extensions of the browser have set on [html] and [body] and whatever
    nodes they have appended to [body] by then: the head that the host adds
    under [html] is passed over, the content is found under [body], and the
    two flags of the layout silence the rest. *)
Theorem served_hydrates cfg content html_attrs body_attrs appended :
  hydrateRoot (with_extensions html_attrs body_attrs appended <$> serve cfg content)
    (RootLayout {| children := content |}) = [].
Proof.
  rewrite with_extensions_serve. unfold hydrateRoot, RootLayout.
  rewrite hydrate_flagged_one by done.
  match goal with |- context [[?h; ?b]] => change [h; b] with ([h] ++ [b]) end.
  rewrite hydrate_flagged_singleton by done.
  cbn [children fst snd extra_nodes]. by rewrite hydrate_render.
Qed.

(** ** Visibility *)

Lemma is_visible_spec cfg v doc d :
  is_visible cfg v doc d = true ↔
  ∃ box, bounding_box cfg v doc d = Some box ∧
         (0 < box_width box)%Z ∧ (0 < box_height box)%Z ∧
         visibility_hidden cfg doc d = false.
Proof.
  unfold is_visible. destruct (bounding_box cfg v doc d) as [box|].
  - rewrite !andb_true_iff, !bool_decide_eq_true, negb_true_iff. split.
    + intros [[? ?] ?]. by exists box.
    + by intros (? & [= <-] & ? & ? & ?).
  - split; [done|]. by intros (? & ? & _).
Qed.

Lemma viewport_box_shows_all cfg :
  bounding_box cfg = viewport_box → visibility_hidden cfg = nothing_hidden →
  shows_all cfg.
Proof.
  intros Hbox Hhid v doc d Hw Hh. apply is_visible_spec. rewrite Hbox, Hhid.
  by eexists.
Qed.

(** ** Locators on the documents of the host *)

Section locators.
Variable cfg : HostConfig.

(** A selector for [body] finds the [body] of the layout, and every [body]
    that the content brings. *)
Lemma serve_bodies content :
  querySelectorAll_from "body" (serve cfg content)
  = DElement "body" [] (render content) :: querySelectorAll_from "body" (render content).
Proof.
  rewrite serve_document, querySelectorAll_from_one, querySelectorAll_element.
  rewrite (querySelectorAll_from_leaf _ "head") by done.
  by rewrite querySelectorAll_from_one, querySelectorAll_element.
Qed.

(** A locator of [body] resolves on a page exactly when the content brings
    no [body] of its own, and then to the [body] of the layout. *)
Lemma serve_resolve_body content :
  resolve_strict "body" (serve cfg content)
  = if decide (querySelectorAll_from "body" (render content) = [])
    then Some (DElement "body" [] (render content)) else None.
Proof.
  unfold resolve_strict. rewrite serve_bodies.
  by destruct (querySelectorAll_from "body" (render content)).
Qed.

(** What a locator of [body] sees on a page of the application. *)
Lemma host_visible_body content loc v st :
  host_visible cfg "body"
    {| location := loc; document := serve cfg content; viewport := v; status := st |}
  = bool_decide (querySelectorAll_from "body" (render content) = [])
    && is_visible cfg v (serve cfg content) (DElement "body" [] (render content)).
Proof.
  unfold host_visible. cbn [document viewport]. rewrite serve_resolve_body.
  by case_decide; [rewrite bool_decide_eq_true_2|rewrite bool_decide_eq_false_2].
Qed.

(** It resolves on every page whose content is nested well. *)
Lemma serve_resolve_body_nested content :
  nesting_ok "body" content = true →
  resolve_strict "body" (serve cfg content) = Some (DElement "body" [] (render content)).
Proof.
  intros Hn. rewrite serve_resolve_body, decide_True; [done|].
  apply (structure_absent "body") with (p := "body"); [|apply flow_body|done].
  by apply (bool_decide_unpack _).
Qed.

End locators.

(** ** The pages of the host *)

(** C20. Whatever a test does on the host (navigations to any URL, changes of
    the viewport, waiting, in any order and number), the page it is on is
    blank or is a page of the application: its title is the title that the
    layout declares, and its document is [html] with [lang] set to [en],
    over the head of the page and one [body] that holds the nodes of the
    home page or of the not-found page. *)
Theorem host_reachable_ok cfg (p : HostPage) :
  reachable (BR := host_browser cfg) p →
  (br_url (Browser := host_browser cfg) p = "about:blank" ∧ document p = []) ∨
  (br_title (Browser := host_browser cfg) p = "Vibe Coding Template" ∧
   ∃ content, content ∈ [home_page cfg; not_found_page cfg] ∧
     document p
     = [DElement "html" [("lang", "en")]
          [DElement "head" [] (page_head cfg);
           DElement "body" [] (render content)]]).
Proof.
  intros Hp.
  destruct (reachable_ind_stable _ p (host_page_ok_stable cfg) (or_introl (conj eq_refl eq_refl)) Hp)
    as [?|(_ & content & Hc & Hdoc)]; [by left|right].
  simpl. rewrite Hdoc, serve_document. eauto.
Qed.
