(* ===== verification/EndToEnd.v ===== *)
(** The smoke suite run against the reference host.

    The two parts of the repository meet here: the suite of [HomeSpec] drives
    the host of [Host], whose every page is [RootLayout] around the content
    and whose head comes from [metadata].  The theorems say which tests pass
    whatever the host is configured with, what the one test that depends on
    the configuration depends on (that the locator of [body] resolves, and
    that the element has a box and is not hidden), that no test looks at
    the status of the response, and that a second run on the same page
    changes nothing. *)

From stdpp Require Import relations.
From S2P Require Import Prelude.
From S2P Require Import Jsx.
From S2P Require Import Nesting.
From S2P Require Import Dom.
From S2P Require Import Query.
From S2P Require Import Hydration.
From S2P Require Import Layout.
From S2P Require Import RegExp.
From S2P Require Import Playwright.
From S2P Require Import Steps.
From S2P Require Import HomeSpec.
From S2P Require Import Host.

Local Open Scope se_scope.

(** A host for examples: a development server, a home page with a heading,
    and a style sheet that hides nothing. *)
Definition demo_host : HostConfig := {|
  origin := "http://localhost:3000";
  home_page := RElement "main" [] [RElement "h1" [] [RText "Welcome"]];
  home_status := 200;
  not_found_page := RText "404";
  bounding_box := viewport_box;
  visibility_hidden := nothing_hidden;
  expect_timeout := 50;
  asset_url m := "/_next/static/css/" +:+ m;
|}.

Definition demo_browser : Browser HostPage := host_browser demo_host.

(** A test and a suite are written for every browser; [on_host] and
    [suite_on_host] run them on the host of a configuration. *)
Definition on_host (cfg : HostConfig)
    (t : ∀ Page, Browser Page → TestCase Page) : Outcome :=
  run_test (BR := host_browser cfg) (t HostPage (host_browser cfg)).

Definition suite_on_host (cfg : HostConfig)
    (s : ∀ Page, Browser Page → Suite Page) : list (list string * Outcome) :=
  run_suite (BR := host_browser cfg) (s HostPage (host_browser cfg)).

(** The page on which a test ends on the host, when it passes. *)
Definition ends_on (cfg : HostConfig)
    (t : ∀ Page, Browser Page → TestCase Page) : option HostPage :=
  match test_body (t HostPage (host_browser cfg)) (host_new_page) with
  | Ok (_, p) => Some p
  | Err _ => None
  end.

(** The home page of a host in a viewport, as the server answered it. *)
Definition home_at (cfg : HostConfig) (v : ViewportSize) : HostPage := {|
  location := origin cfg +:+ "/";
  document := serve cfg (home_page cfg);
  viewport := v;
  status := Some (home_status cfg);
|}.

(** The viewport that [should be responsive on mobile] sets. *)
Definition mobile : ViewportSize := {| width := 375; height := 667 |}.

(** A test whose body runs twice in succession, on the same page. *)
Definition twice (t : ∀ Page, Browser Page → TestCase Page)
    : ∀ Page, Browser Page → TestCase Page :=
  λ Page BR, {|
    test_title := test_title (t Page BR);
    test_body := test_body (t Page BR) ;; test_body (t Page BR);
  |}.

(** A browser whose server answers one navigation and no more: a page is
    the number of navigations so far. *)
Definition one_shot : Browser nat := {|
  br_new_page := 0;
  br_goto _ n := if decide (n = 0) then Some 1 else None;
  br_url _ := "/";
  br_title _ := "";
  br_set_viewport _ n := n;
  br_visible _ _ := true;
  br_resolve u := u;
  br_wait n := n;
  br_timeout := 0;
|}.

Section end_to_end.
Variable cfg : HostConfig.

(** ** The bodies on the host *)

Lemma host_expect holds error (p : HostPage) :
  expect.retrying (BR := host_browser cfg) holds error p
  = if holds p then Ok (tt, p) else Err (error p).
Proof. by apply retrying_settled. Qed.

Lemma host_load_body p :
  test_body (should_load_the_homepage (BR := host_browser cfg)) p
  = Ok (tt, home_at cfg (viewport p)).
Proof.
  simpl. unfold se_bind, page.goto. simpl. rewrite host_goto_home.
  unfold expect.toHaveURL. rewrite host_expect. by rewrite bool_decide_eq_true_2.
Qed.

Lemma host_title_body p :
  test_body (should_have_correct_title (BR := host_browser cfg)) p
  = Ok (tt, home_at cfg (viewport p)).
Proof.
  simpl. unfold se_bind, page.goto. simpl. rewrite host_goto_home.
  unfold expect.toHaveTitle. by rewrite host_expect, title_pattern_any.
Qed.

Lemma host_mobile_body p :
  test_body (should_be_responsive_on_mobile (BR := host_browser cfg)) p
  = if host_visible cfg "body" (home_at cfg mobile)
    then Ok (tt, home_at cfg mobile)
    else Err (ToBeVisibleFailed "body").
Proof.
  simpl. unfold se_bind, page.goto, page.setViewportSize. simpl.
  rewrite host_goto_home. unfold expect.toBeVisible. by rewrite host_expect.
Qed.

(** The locator of the third test on the home page: it resolves when the
    home page brings no [body] of its own, and the layout engine decides. *)
Lemma host_visible_home v :
  host_visible cfg "body" (home_at cfg v) = true ↔
  querySelectorAll_from "body" (render (home_page cfg)) = [] ∧
  is_visible cfg v (serve cfg (home_page cfg))
    (DElement "body" [] (render (home_page cfg))) = true.
Proof.
  unfold home_at. by rewrite host_visible_body, andb_true_iff, bool_decide_eq_true.
Qed.

(** ** The suite on the host *)

(** C21. No test of the suite looks at the status of the response: the first
    two tests pass on every host, with whatever status its server answers
    the route [/], an error status included, and end on the page of that
    response. *)
Theorem host_status_not_checked :
  on_host cfg (@should_load_the_homepage) = Passed ∧
  on_host cfg (@should_have_correct_title) = Passed ∧
  status <$> ends_on cfg (@should_load_the_homepage) = Some (Some (home_status cfg)) ∧
  status <$> ends_on cfg (@should_have_correct_title) = Some (Some (home_status cfg)).
Proof.
  unfold on_host, ends_on, run_test. by rewrite !host_load_body, !host_title_body.
Qed.

(** C22. [should be responsive on mobile] passes on a host exactly when the
    home page brings no [body] of its own, so that the locator resolves to
    the [body] of the root layout, and that element, at 375 by 667, is
    rendered with a box that is not empty and is not hidden. *)
Theorem host_should_be_responsive_on_mobile :
  on_host cfg (@should_be_responsive_on_mobile) = Passed ↔
  querySelectorAll_from "body" (render (home_page cfg)) = [] ∧
  ∃ box,
    bounding_box cfg {| width := 375; height := 667 |} (serve cfg (home_page cfg))
      (DElement "body" [] (render (home_page cfg))) = Some box ∧
    (0 < box_width box)%Z ∧ (0 < box_height box)%Z ∧
    visibility_hidden cfg (serve cfg (home_page cfg))
      (DElement "body" [] (render (home_page cfg))) = false.
Proof.
  unfold on_host, run_test.
  rewrite host_mobile_body, <- is_visible_spec, <- (host_visible_home mobile).
  by destruct (host_visible _ _ _).
Qed.

(** C23. The whole suite passes on a host whose home page is nested well and
    whose style sheet hides nothing. *)
Theorem host_Homepage_all_passed :
  nesting_ok "body" (home_page cfg) = true → shows_all cfg →
  all_passed (suite_on_host cfg (@Homepage)) = true.
Proof.
  intros Hn Hvis. unfold suite_on_host. apply Homepage_all_passed_bodies. simpl.
  rewrite !host_goto_home. repeat split; eexists; try done.
  - split; [done|]. by apply within_now.
  - split; [done|]. apply within_now. unfold host_visible. cbn [document].
    by rewrite serve_resolve_body_nested, Hvis.
Qed.

(** ** Where the tests end, and what a second run does *)

(** C26. On the host, a test of the suite that runs twice in succession on the
    same page has the outcome of one run: the first run leaves nothing
    behind that the second could see. *)
Theorem host_twice :
  on_host cfg (twice (@should_load_the_homepage))
  = on_host cfg (@should_load_the_homepage) ∧
  on_host cfg (twice (@should_have_correct_title))
  = on_host cfg (@should_have_correct_title) ∧
  on_host cfg (twice (@should_be_responsive_on_mobile))
  = on_host cfg (@should_be_responsive_on_mobile).
Proof.
  unfold on_host, twice, run_test. cbn [test_body]. unfold se_bind.
  rewrite !host_load_body, !host_title_body, !host_mobile_body.
  destruct (host_visible _ _ _) eqn:Hv; [|done].
  by rewrite host_mobile_body, Hv.
Qed.

End end_to_end.

(** That a second run changes nothing is a property of the host, not of
    the tests: on a browser whose server answers one navigation only, every
    test of the suite passes, and fails when it runs twice. *)
Lemma twice_depends_on_the_browser :
  Forall (λ t : ∀ Page, Browser Page → TestCase Page,
            run_test (BR := one_shot) (t nat one_shot) = Passed ∧
            run_test (BR := one_shot) (twice t nat one_shot) = Failed (GotoFailed "/"))
    [@should_load_the_homepage; @should_have_correct_title;
     @should_be_responsive_on_mobile].
Proof. by repeat constructor. Qed.

(** ** Witnesses *)

Section witnesses.
#[local] Existing Instance demo_browser.

Lemma host_Homepage_all_passed_witness :
  all_passed (suite_on_host demo_host (@Homepage)) = true.
Proof.
  exact (host_Homepage_all_passed demo_host eq_refl
           (viewport_box_shows_all demo_host eq_refl eq_refl)).
Defined.

Lemma Homepage_all_passed_witness :
  all_passed (run_suite Homepage) = true.
Proof.
  apply (proj2 (Homepage_all_passed (BR := demo_browser)
                  (BL := host_laws demo_host))).
  eexists. split; [reflexivity|]. split; by apply within_now.
Defined.

Lemma Homepage_all_passed_settled_witness :
  all_passed (run_suite Homepage) = true.
Proof.
  apply (proj2 (Homepage_all_passed_settled (BR := demo_browser)
                  (BL := host_laws demo_host) (ST := host_settles demo_host))).
  eexists. split; [reflexivity|]. split; [reflexivity|]. by vm_compute.
Defined.

Lemma load_passes_title_passes_witness :
  run_test should_load_the_homepage = Passed ∧
  run_test should_have_correct_title = Passed.
Proof.
  split; [by vm_compute|]. apply load_passes_title_passes. by vm_compute.
Defined.

(** A page that is reached through the not-found page. *)
Lemma host_reachable_ok_witness :
  (br_url (home_at demo_host mobile) = "about:blank" ∧
   document (home_at demo_host mobile) = []) ∨
  (br_title (home_at demo_host mobile) = "Vibe Coding Template" ∧
   ∃ content, content ∈ [home_page demo_host; not_found_page demo_host] ∧
     document (home_at demo_host mobile)
     = [DElement "html" [("lang", "en")]
          [DElement "head" [] (page_head demo_host);
           DElement "body" [] (render content)]]).
Proof.
  apply (host_reachable_ok demo_host). unfold reachable.
  eapply rtc_l; [apply (step_goto "/missing"); reflexivity|].
  eapply rtc_l; [apply (step_set_viewport mobile)|].
  eapply rtc_l; [apply step_wait|].
  eapply rtc_l; [apply (step_goto "/"); reflexivity|]. apply rtc_refl.
Defined.

End witnesses.
